(** * Stock correlation and impact analysis engine

    A shallow embedding of [StockCorrelationEngine] of
    [correlation_engine.py], and the properties of its peer resolution,
    pairwise correlation, and impact aggregation.

    Modelling conventions.
    - A Python [float] is a rational extended with the two infinities and
      NaN.  Arithmetic is exact: the rounding error of binary floating
      point and the sign of zero are not represented.
    - A Python [dict] with a fixed set of string keys is a record whose
      fields carry the keys' names; a key that only some code paths set is
      an [option] field.  A [dict] that is iterated is an association list
      in insertion order.
    - A [raise] is the left injection of a sum; [try]/[except Exception] is
      a match on it.
    - The price provider ([yfinance]), [pandas.Series.corr], the thread pool
      and the clock are parameters of the development. *)

From Stdlib Require Import List String Ascii Bool Arith ZArith QArith Qabs Qround Lia.
From Stdlib Require Import Permutation Sorted Lqa.
Import ListNotations.

Open Scope string_scope.
Open Scope list_scope.

(** ** Floats *)

Module PyFloat.

Inductive float : Type :=
| Fin (q : Q)
| Inf (negative : bool)
| NaN.

Definition zero : float := Fin 0.
Definition one : float := Fin 1.

Definition of_nat (n : nat) : float := Fin (inject_Z (Z.of_nat n)).

Definition is_nan (x : float) : bool :=
  match x with NaN => true | _ => false end.

Definition Qlt_bool (a b : Q) : bool := negb (Qle_bool b a).

(** [abs(x)] *)
Definition fabs (x : float) : float :=
  match x with
  | Fin q => Fin (Qabs q)
  | Inf _ => Inf false
  | NaN => NaN
  end.

Definition fneg (x : float) : float :=
  match x with
  | Fin q => Fin (- q)
  | Inf s => Inf (negb s)
  | NaN => NaN
  end.

(** [x < y]; any comparison with NaN is [False]. *)
Definition flt (x y : float) : bool :=
  match x, y with
  | NaN, _ | _, NaN => false
  | Fin a, Fin b => Qlt_bool a b
  | Fin _, Inf s => negb s
  | Inf s, Fin _ => s
  | Inf s, Inf t => s && negb t
  end.

(** [x == y] *)
Definition feq (x y : float) : bool :=
  match x, y with
  | NaN, _ | _, NaN => false
  | Fin a, Fin b => Qeq_bool a b
  | Inf s, Inf t => Bool.eqb s t
  | _, _ => false
  end.

Definition fgt (x y : float) : bool := flt y x.
Definition fge (x y : float) : bool := flt y x || feq x y.
(** [x != y] is the negation of [==], hence [True] on NaN. *)
Definition fne (x y : float) : bool := negb (feq x y).

Definition fadd (x y : float) : float :=
  match x, y with
  | NaN, _ | _, NaN => NaN
  | Fin a, Fin b => Fin (a + b)
  | Fin _, Inf s | Inf s, Fin _ => Inf s
  | Inf s, Inf t => if Bool.eqb s t then Inf s else NaN
  end.

Definition fsub (x y : float) : float := fadd x (fneg y).

Definition Qneg_bool (a : Q) : bool := Qlt_bool a 0.

Definition fmul (x y : float) : float :=
  match x, y with
  | NaN, _ | _, NaN => NaN
  | Fin a, Fin b => Fin (a * b)
  | Fin a, Inf s | Inf s, Fin a =>
      if Qeq_bool a 0 then NaN else Inf (xorb s (Qneg_bool a))
  | Inf s, Inf t => Inf (xorb s t)
  end.

(** Division as [numpy] does it: no exception, a zero divisor gives an
    infinity, or NaN for [0/0]. *)
Definition fdiv (x y : float) : float :=
  match x, y with
  | NaN, _ | _, NaN => NaN
  | Fin a, Fin b =>
      if Qeq_bool b 0
      then (if Qeq_bool a 0 then NaN else Inf (Qneg_bool a))
      else Fin (a / b)
  | Fin _, Inf _ => Fin 0
  | Inf s, Fin b => Inf (xorb s (Qneg_bool b))
  | Inf _, Inf _ => NaN
  end.

(** Nearest integer, ties to the even one. *)
Definition round_half_even (q : Q) : Z :=
  let f := Qfloor q in
  let r := (q - inject_Z f)%Q in
  if Qlt_bool r (1 # 2) then f
  else if Qlt_bool (1 # 2) r then (f + 1)%Z
  else if Z.even f then f else (f + 1)%Z.

(** [round(x, 3)] *)
Definition round3 (x : float) : float :=
  match x with
  | Fin q => Fin (Qred (inject_Z (round_half_even (q * 1000)) / 1000))
  | _ => x
  end.

(** [numpy.mean] of a non-empty list. *)
Definition fmean (l : list float) : float :=
  fdiv (fold_left fadd l zero) (of_nat (List.length l)).

(** The builtin [max] of a non-empty list: the first of the largest. *)
Definition fmax_from (m : float) (l : list float) : float :=
  fold_left (fun acc x => if fgt x acc then x else acc) l m.

Definition fmax (l : list float) : float :=
  match l with
  | [] => zero
  | x :: l' => fmax_from x l'
  end.

End PyFloat.

Import PyFloat.

(** ** Python values that meet in a membership test *)

Inductive pyobj : Type :=
| PyStr (s : string)
| PyTuple (a b : string).

(** [x == y]: a [str] and a [tuple] are never equal. *)
Definition py_eq (x y : pyobj) : bool :=
  match x, y with
  | PyStr s, PyStr t => String.eqb s t
  | PyTuple a b, PyTuple c d => String.eqb a c && String.eqb b d
  | _, _ => false
  end.

(** [x in l] *)
Definition py_in (x : pyobj) (l : list pyobj) : bool :=
  existsb (fun y => py_eq y x) l.

(** ** Strings, dictionaries *)

(** [s.endswith(suffix)] *)
Definition endswith (s suffix : string) : bool :=
  let n := String.length s in
  let m := String.length suffix in
  (m <=? n)%nat && String.eqb (substring (n - m) m s) suffix.

Definition dict (V : Type) : Type := list (string * V).

(** [d.get(key, default)] *)
Fixpoint dict_get {V : Type} (d : dict V) (key : string) (default : V) : V :=
  match d with
  | [] => default
  | (k, v) :: d' => if String.eqb k key then v else dict_get d' key default
  end.

(** [l[i:j]] for [0 <= i <= j] *)
Definition slice {A : Type} (i j : nat) (l : list A) : list A :=
  skipn i (firstn j l).

(** ** The sector catalog *)

Definition sector_mapping : dict (list string) :=
  [ ("Technology", ["AAPL"; "MSFT"; "GOOGL"; "META"; "NVDA"; "CRM"; "ORCL"; "ADBE"; "INTC"; "AMD"]);
    ("Financial Services", ["JPM"; "BAC"; "WFC"; "GS"; "MS"; "C"; "USB"; "PNC"; "TFC"; "COF"]);
    ("Healthcare", ["JNJ"; "PFE"; "UNH"; "ABBV"; "MRK"; "TMO"; "ABT"; "DHR"; "BMY"; "AMGN"]);
    ("Consumer Cyclical", ["AMZN"; "TSLA"; "HD"; "MCD"; "DIS"; "NKE"; "SBUX"; "LOW"; "TJX"; "BKNG"]);
    ("Energy", ["XOM"; "CVX"; "COP"; "EOG"; "SLB"; "PSX"; "VLO"; "MPC"; "OXY"; "HAL"]);
    ("Industrials", ["BA"; "CAT"; "GE"; "HON"; "UNP"; "LMT"; "MMM"; "FDX"; "UPS"; "RTX"]);
    ("Basic Materials", ["LIN"; "APD"; "ECL"; "DD"; "DOW"; "FCX"; "NEM"; "VMC"; "MLM"; "PPG"]);
    ("Real Estate", ["AMT"; "PLD"; "CCI"; "EQIX"; "PSA"; "SPG"; "O"; "WELL"; "DLR"; "EXR"]);
    ("Utilities", ["NEE"; "DUK"; "SO"; "AEP"; "EXC"; "XEL"; "SRE"; "D"; "PEG"; "PCG"]);
    ("Consumer Defensive", ["PG"; "KO"; "PEP"; "WMT"; "COST"; "CL"; "KMB"; "GIS"; "K"; "CPB"]) ].

Definition indian_sectors : dict (list string) :=
  [ ("Technology", ["TCS.NS"; "INFY.NS"; "WIPRO.NS"; "HCLTECH.NS"; "TECHM.NS"; "LTI.NS"; "MINDTREE.NS"]);
    ("Financial Services", ["HDFCBANK.NS"; "ICICIBANK.NS"; "SBIN.NS"; "AXISBANK.NS"; "KOTAKBANK.NS"; "INDUSINDBK.NS"]);
    ("Energy", ["RELIANCE.NS"; "ONGC.NS"; "IOC.NS"; "BPCL.NS"; "HINDPETRO.NS"; "GAIL.NS"]);
    ("Consumer Cyclical", ["MARUTI.NS"; "BAJAJ-AUTO.NS"; "M&M.NS"; "EICHERMOT.NS"; "HEROMOTOCO.NS"]);
    ("Healthcare", ["SUNPHARMA.NS"; "DRREDDY.NS"; "CIPLA.NS"; "LUPIN.NS"; "BIOCON.NS"; "CADILAHC.NS"]);
    ("Industrials", ["LT.NS"; "ULTRACEMCO.NS"; "ADANIENT.NS"; "ADANIPORTS.NS"; "TATASTEEL.NS"]);
    ("Consumer Defensive", ["HINDUUNILV.NS"; "ITC.NS"; "NESTLEIND.NS"; "GODREJCP.NS"; "DABUR.NS"]) ].

(** ** Peer resolution *)

Definition find_sector_peers (ticker sector : string) : list string :=
  let sector_stocks :=
    if endswith ticker ".NS" || endswith ticker ".BO"
    then dict_get indian_sectors sector []
    else dict_get sector_mapping sector [] in
  let peers := filter (fun stock => negb (String.eqb stock ticker)) sector_stocks in
  firstn 8 peers.

Definition get_related_stocks (ticker sector industry : string) : dict (list string) :=
  let sector_peers := find_sector_peers ticker sector in
  [ ("sector_peers", firstn 5 sector_peers);
    ("industry_peers",
      if (2 <? List.length sector_peers)%nat then slice 2 6 sector_peers else sector_peers);
    ("competitors", firstn 4 sector_peers) ].

(** The candidate loop of [analyze_stock_impact]:
<<
    all_related = []
    for category, stocks in related_stocks.items():
        for stock in stocks:
            if stock not in all_related:
                all_related.append((stock, category))
>>
    [all_related] holds tuples, and the test looks for the bare [stock]
    string among them. *)
Definition as_tuples (l : list (string * string)) : list pyobj :=
  map (fun p => PyTuple (fst p) (snd p)) l.

Fixpoint add_stocks (category : string) (stocks : list string)
    (all_related : list (string * string)) : list (string * string) :=
  match stocks with
  | [] => all_related
  | stock :: rest =>
      add_stocks category rest
        (if negb (py_in (PyStr stock) (as_tuples all_related))
         then all_related ++ [(stock, category)]
         else all_related)
  end.

Fixpoint add_categories (items : dict (list string))
    (all_related : list (string * string)) : list (string * string) :=
  match items with
  | [] => all_related
  | (category, stocks) :: rest =>
      add_categories rest (add_stocks category stocks all_related)
  end.

Definition all_related_of (related_stocks : dict (list string)) : list (string * string) :=
  add_categories related_stocks [].

(** ** Exceptions *)

Inductive exn : Type :=
| Exception (msg : string).

(** [str(e)] *)
Definition str (e : exn) : string :=
  match e with Exception msg => msg end.

(** ** Price series and data frames *)

(** A date-indexed column of floats: the [Close] column of a price
    history, or a series derived from it.  The provider delivers it in
    increasing date order without duplicate dates. *)
Definition Series : Type := list (Z * float).

Fixpoint series_at (d : Z) (s : Series) : option float :=
  match s with
  | [] => None
  | (d', v) :: s' => if Z.eqb d' d then Some v else series_at d s'
  end.

(** A two-column frame with columns [stock1] and [stock2]. *)
Definition Frame : Type := list (Z * (float * float)).

Definition stock1 (f : Frame) : Series := map (fun r => (fst r, fst (snd r))) f.
Definition stock2 (f : Frame) : Series := map (fun r => (fst r, snd (snd r))) f.

(** [pd.DataFrame({'stock1': s1, 'stock2': s2}).dropna()]: the rows whose
    date both series have, with both values present. *)
Fixpoint combine (s1 s2 : Series) : Frame :=
  match s1 with
  | [] => []
  | (d, a) :: s1' =>
      match series_at d s2 with
      | Some b =>
          if is_nan a || is_nan b then combine s1' s2
          else (d, (a, b)) :: combine s1' s2
      | None => combine s1' s2
      end
  end.

(** [s.pct_change()]: [s / s.shift(1) - 1], the first entry undefined. *)
Fixpoint pct_change_from (prev : float) (s : Series) : Series :=
  match s with
  | [] => []
  | (d, p) :: s' => (d, fsub (fdiv p prev) one) :: pct_change_from p s'
  end.

Definition pct_change (s : Series) : Series :=
  match s with
  | [] => []
  | (d, p) :: s' => (d, NaN) :: pct_change_from p s'
  end.

(** [s.dropna()] *)
Definition dropna (s : Series) : Series :=
  filter (fun x => negb (is_nan (snd x))) s.

(** ** Result records *)

Module Corr.
(** The dict returned by [calculate_correlation]. *)
Record t : Type := mk {
  correlation : float;
  strength : string;
  direction : option string;
  data_points : option nat;
  p_value : option float
}.
End Corr.

Module Entry.
(** An element of [correlation_results]. *)
Record t : Type := mk {
  ticker : string;
  relationship_type : string;
  correlation : float;
  strength : string;
  direction : string;
  impact_score : float
}.
End Entry.

Module Summary.
Record t : Type := mk {
  total_analyzed : nat;
  average_correlation : float;
  max_correlation : float;
  market_influence : string
}.
End Summary.

Module Impact.
(** The dict returned by [analyze_stock_impact]. *)
Record t : Type := mk {
  primary_ticker : string;
  related_stocks : list Entry.t;
  summary : Summary.t;
  timestamp : option string;
  error : option string
}.
End Impact.

(** [{"correlation": 0.0, "strength": label, "p_value": 1.0}] *)
Definition sentinel (label : string) : Corr.t :=
  {| Corr.correlation := Fin 0;
     Corr.strength := label;
     Corr.direction := None;
     Corr.data_points := None;
     Corr.p_value := Some (Fin 1) |}.

(** The strength ladder of [calculate_correlation]. *)
Definition strength_of (correlation : float) : string :=
  let abs_corr := fabs correlation in
  if fge abs_corr (Fin (8 # 10)) then "Very Strong"
  else if fge abs_corr (Fin (6 # 10)) then "Strong"
  else if fge abs_corr (Fin (4 # 10)) then "Moderate"
  else if fge abs_corr (Fin (2 # 10)) then "Weak"
  else "Very Weak".

Definition direction_of (correlation : float) : string :=
  if fgt correlation (Fin 0) then "Positive" else "Negative".

(** [list.sort(key=key, reverse=True)].  The sort is stable, and stays so
    under [reverse=True]: elements with equal keys keep their order.
    Inserting from the right, each element before the first one with a key
    not larger than its own, yields that order whenever the keys are
    comparable, that is, free of NaN. *)
Fixpoint insert_desc {A : Type} (key : A -> float) (x : A) (l : list A) : list A :=
  match l with
  | [] => [x]
  | y :: l' => if fgt (key y) (key x) then y :: insert_desc key x l' else x :: l
  end.

Definition sort_desc {A : Type} (key : A -> float) (l : list A) : list A :=
  fold_right (insert_desc key) [] l.

(** The market-influence ladder of [analyze_stock_impact]. *)
Definition influence_of (avg_correlation : float) : string :=
  if fge avg_correlation (Fin (6 # 10)) then "High"
  else if fge avg_correlation (Fin (4 # 10)) then "Moderate"
  else "Low".

(** ** The engine *)

Section Engine.

(** [yf.Ticker(ticker).history(period=period)], reduced to its [Close]
    column; [inl] when the call raises. *)
Variable yf_history : string -> string -> exn + Series.

(** [returns1.corr(returns2)] of pandas. *)
Variable series_corr : Series -> Series -> exn + float.

(** [executor.submit] for the i-th task: [Some e] when it raises. *)
Variable executor_submit : nat -> option exn.

(** Whether [future.result(timeout=10)] of the i-th task raises
    [TimeoutError]. *)
Variable timed_out : nat -> bool.

(** [datetime.now().isoformat()] *)
Variable now_isoformat : string.

Definition get_stock_price_data (ticker period : string) : option Series :=
  match yf_history ticker period with
  | inr data =>
      match data with
      | [] => None
      | _ :: _ => Some data
      end
  | inl e => None
  end.

Definition calculate_correlation (ticker1 ticker2 period : string) : Corr.t :=
  let data1 := get_stock_price_data ticker1 period in
  let data2 := get_stock_price_data ticker2 period in
  match data1, data2 with
  | Some data1, Some data2 =>
      let combined_data := combine data1 data2 in
      if (List.length combined_data <? 30)%nat
      then sentinel "Insufficient Data"
      else
        let returns1 := dropna (pct_change (stock1 combined_data)) in
        let returns2 := dropna (pct_change (stock2 combined_data)) in
        match series_corr returns1 returns2 with
        | inr correlation =>
            {| Corr.correlation := round3 correlation;
               Corr.strength := strength_of correlation;
               Corr.direction := Some (direction_of correlation);
               Corr.data_points := Some (List.length returns1);
               Corr.p_value := None |}
        | inl e => sentinel "Error"
        end
  | _, _ => sentinel "No Data"
  end.

(** A submitted task: the index of its future, the stock, the category. *)
Definition Task : Type := (nat * string * string)%type.

(** The submission loop; a raising [submit] leaves the [try] body. *)
Fixpoint submit_all (i : nat) (all_related : list (string * string))
    : exn + list Task :=
  match all_related with
  | [] => inr []
  | (stock, category) :: rest =>
      match executor_submit i with
      | Some e => inl e
      | None =>
          match submit_all (S i) rest with
          | inr futures => inr ((i, stock, category) :: futures)
          | inl e => inl e
          end
      end
  end.

(** The entry appended for a correlation record. *)
Definition entry_of (stock category : string) (correlation_data : Corr.t) : Entry.t :=
  {| Entry.ticker := stock;
     Entry.relationship_type := category;
     Entry.correlation := Corr.correlation correlation_data;
     Entry.strength := Corr.strength correlation_data;
     Entry.direction :=
       match Corr.direction correlation_data with
       | Some d => d
       | None => "Neutral"
       end;
     Entry.impact_score := fmul (fabs (Corr.correlation correlation_data)) (Fin 100) |}.

(** The collection loop; a timeout skips the candidate. *)
Fixpoint collect (primary_ticker : string) (futures : list Task)
    (correlation_results : list Entry.t) : list Entry.t :=
  match futures with
  | [] => correlation_results
  | (i, stock, category) :: rest =>
      collect primary_ticker rest
        (if timed_out i then correlation_results
         else
           let correlation_data := calculate_correlation primary_ticker stock "1y" in
           if fne (Corr.correlation correlation_data) (Fin 0)
           then correlation_results ++ [entry_of stock category correlation_data]
           else correlation_results)
  end.

Definition abs_correlation (r : Entry.t) : float := fabs (Entry.correlation r).

(** The body of the [try] of [analyze_stock_impact]. *)
Definition analyze_stock_impact_body (primary_ticker sector : string)
    : exn + Impact.t :=
  let related_stocks := get_related_stocks primary_ticker sector "" in
  let all_related := all_related_of related_stocks in
  match submit_all 0 all_related with
  | inl e => inl e
  | inr futures =>
      let correlation_results :=
        sort_desc abs_correlation (collect primary_ticker futures []) in
      let '(avg_correlation, max_correlation, market_influence) :=
        match correlation_results with
        | _ :: _ =>
            let avg_correlation := fmean (map abs_correlation correlation_results) in
            let max_correlation := fmax (map abs_correlation correlation_results) in
            (avg_correlation, max_correlation, influence_of avg_correlation)
        | [] => (Fin 0, Fin 0, "Unknown")
        end in
      inr {| Impact.primary_ticker := primary_ticker;
             Impact.related_stocks := correlation_results;
             Impact.summary :=
               {| Summary.total_analyzed := List.length correlation_results;
                  Summary.average_correlation := round3 avg_correlation;
                  Summary.max_correlation := round3 max_correlation;
                  Summary.market_influence := market_influence |};
             Impact.timestamp := Some now_isoformat;
             Impact.error := None |}
  end.

Definition analyze_stock_impact (primary_ticker sector : string) : Impact.t :=
  match analyze_stock_impact_body primary_ticker sector with
  | inr result => result
  | inl e =>
      {| Impact.primary_ticker := primary_ticker;
         Impact.related_stocks := [];
         Impact.summary :=
           {| Summary.total_analyzed := 0;
              Summary.average_correlation := Fin 0;
              Summary.max_correlation := Fin 0;
              Summary.market_influence := "Error" |};
         Impact.timestamp := None;
         Impact.error := Some (str e) |}
  end.

End Engine.

(** ** Sector inference ([enhanced_stock_info.py]) *)

(** [sub in s] *)
Fixpoint contains (sub s : string) : bool :=
  String.prefix sub s ||
  match s with
  | EmptyString => false
  | String _ s' => contains sub s'
  end.

(** [any(keyword in text for keyword in keywords)] *)
Definition any_keyword (keywords : list string) (text : string) : bool :=
  existsb (fun keyword => contains keyword text) keywords.

Section Inference.

(** [str.lower] *)
Variable lower : string -> string.

Definition infer_sector_from_industry (industry : string) : string :=
  let industry_lower := lower industry in
  if any_keyword ["software"; "technology"; "internet"; "computer"; "semiconductor";
                  "electronics"] industry_lower
  then "Technology"
  else if any_keyword ["bank"; "financial"; "insurance"; "credit"; "investment"]
            industry_lower
  then "Financial Services"
  else if any_keyword ["pharmaceutical"; "biotechnology"; "medical"; "healthcare"; "drug"]
            industry_lower
  then "Healthcare"
  else if any_keyword ["oil"; "gas"; "energy"; "petroleum"; "renewable"] industry_lower
  then "Energy"
  else if any_keyword ["retail"; "consumer"; "food"; "beverage"; "restaurant"]
            industry_lower
  then "Consumer Cyclical"
  else if any_keyword ["manufacturing"; "industrial"; "aerospace"; "defense";
                       "transportation"] industry_lower
  then "Industrials"
  else if any_keyword ["real estate"; "property"; "reit"] industry_lower
  then "Real Estate"
  else if any_keyword ["utility"; "utilities"; "electric"; "water"; "power"] industry_lower
  then "Utilities"
  else if any_keyword ["mining"; "materials"; "chemicals"; "steel"; "aluminum"]
            industry_lower
  then "Basic Materials"
  else "Unknown".

End Inference.

(** ** Ticker lookup and stock information ([enhanced_stock_info.py]) *)

(** The fallback table of [get_ticker_from_mapping]. *)
Definition mapping : dict string :=
  [ ("apple", "AAPL"); ("microsoft", "MSFT"); ("google", "GOOGL"); ("alphabet", "GOOGL");
    ("amazon", "AMZN"); ("tesla", "TSLA"); ("meta", "META"); ("facebook", "META");
    ("netflix", "NFLX"); ("nvidia", "NVDA"); ("tcs", "TCS.NS"); ("infosys", "INFY.NS");
    ("reliance", "RELIANCE.NS"); ("hdfc bank", "HDFCBANK.NS"); ("hdfc", "HDFCBANK.NS");
    ("icici bank", "ICICIBANK.NS"); ("icici", "ICICIBANK.NS"); ("wipro", "WIPRO.NS");
    ("bharti airtel", "BHARTIARTL.NS"); ("airtel", "BHARTIARTL.NS");
    ("maruti suzuki", "MARUTI.NS"); ("maruti", "MARUTI.NS") ].

(** Truth value of a string: [bool(s)]. *)
Definition nonempty (s : string) : bool :=
  match s with EmptyString => false | String _ _ => true end.

(** [s.replace(" ", "%20")] *)
Fixpoint replace_spaces (s : string) : string :=
  match s with
  | EmptyString => EmptyString
  | String c s' =>
      if Ascii.eqb c " "%char then ("%20" ++ replace_spaces s')%string
      else String c (replace_spaces s')
  end.

Module Quote.
(** An element of [quotes], read with [.get(key, '')]. *)
Record t : Type := mk {
  symbol : string;
  longname : string;
  shortname : string
}.
End Quote.

Module Response.
(** What [requests.get] returns: the status code, and what [.json()]
    gives as [quotes], or the exception [.json()] raises. *)
Record t : Type := mk {
  status_code : Z;
  quotes : exn + list Quote.t
}.
End Response.

Module Info.
(** The keys [get_comprehensive_stock_info] reads of [stock.info]. *)
Record t : Type := mk {
  sector : option string;
  industry : option string;
  marketCap : option Z;
  country : option string;
  website : option string;
  longBusinessSummary : option string;
  fullTimeEmployees : option Z
}.
End Info.

Module StockInfo.
(** The dict returned by [get_comprehensive_stock_info]. *)
Record t : Type := mk {
  ticker : string;
  sector : string;
  industry : string;
  market_cap : Z;
  country : string;
  website : string;
  business_summary : string;
  employee_count : Z;
  correlation_analysis : option Summary.t;
  related_stocks : list Entry.t;
  error : option string
}.
End StockInfo.

Module Api.
(** The dict [get_correlation_analysis] hands to [jsonify]. *)
Record t : Type := mk {
  success : bool;
  data : option (string * Summary.t * list Entry.t);
  error : option string
}.
End Api.

(** [d.get(key, default)] for a key that may be absent. *)
Definition get_or {A : Type} (value : option A) (default : A) : A :=
  match value with Some v => v | None => default end.

(** The result of the paths of [get_comprehensive_stock_info] that find
    nothing. *)
Definition no_info (ticker error : string) : StockInfo.t :=
  {| StockInfo.ticker := ticker;
     StockInfo.sector := "Unknown";
     StockInfo.industry := "Unknown";
     StockInfo.market_cap := 0;
     StockInfo.country := "Unknown";
     StockInfo.website := "";
     StockInfo.business_summary := "";
     StockInfo.employee_count := 0;
     StockInfo.correlation_analysis := None;
     StockInfo.related_stocks := [];
     StockInfo.error := Some error |}.

Section StockInformation.

(** [str.lower] and [str.strip] *)
Variable lower : string -> string.
Variable strip : string -> string.

(** [requests.get(url, headers=headers, timeout=5)] *)
Variable requests_get : string -> exn + Response.t.

(** [yf.Ticker(ticker).info]: [None] for an empty dict. *)
Variable stock_info : string -> exn + option Info.t.

(** [load_models()] of the web application: [Some e] when it raises. *)
Variable load_models : option exn.

Variable yf_history : string -> string -> exn + Series.
Variable series_corr : Series -> Series -> exn + float.
Variable executor_submit : nat -> option exn.
Variable timed_out : nat -> bool.
Variable now_isoformat : string.

Definition get_ticker_from_mapping (company_name : string) : string :=
  let name_lower := strip (lower company_name) in
  dict_get mapping name_lower "".

(** The search loop of [get_ticker_symbol]. *)
Fixpoint best_match (company_name : string) (quotes : list Quote.t) : option string :=
  match quotes with
  | [] => None
  | quote :: rest =>
      let symbol := Quote.symbol quote in
      let quote_name :=
        if nonempty (Quote.longname quote) then Quote.longname quote
        else Quote.shortname quote in
      if nonempty symbol && nonempty quote_name &&
         (contains (lower company_name) (lower quote_name) ||
          contains (lower quote_name) (lower company_name))
      then Some symbol
      else best_match company_name rest
  end.

(** The [try] body of [get_ticker_symbol]: the symbol it returns, [None]
    when it falls through. *)
Definition search_ticker (company_name : string) : exn + option string :=
  let clean_name := replace_spaces (strip company_name) in
  let url := ("https://query2.finance.yahoo.com/v1/finance/search?q=" ++ clean_name ++
              "&quotesCount=5&enableFuzzyQuery=false")%string in
  match requests_get url with
  | inl e => inl e
  | inr response =>
      if (Response.status_code response =? 200)%Z then
        match Response.quotes response with
        | inl e => inl e
        | inr quotes =>
            match best_match company_name quotes with
            | Some symbol => inr (Some symbol)
            | None =>
                match quotes with
                | first :: _ =>
                    if nonempty (Quote.symbol first) then inr (Some (Quote.symbol first))
                    else inr None
                | [] => inr None
                end
            end
        end
      else inr None
  end.

Definition get_ticker_symbol (company_name : string) : string :=
  match search_ticker company_name with
  | inr (Some symbol) => symbol
  | inr None => get_ticker_from_mapping company_name
  | inl e => get_ticker_from_mapping company_name
  end.

(** [business_summary[:500] + '...' if len(business_summary) > 500 else
    business_summary]; a character of the model stands for a character of
    the Python string. *)
Definition shorten (business_summary : string) : string :=
  if (500 <? String.length business_summary)%nat
  then (substring 0 500 business_summary ++ "...")%string
  else business_summary.

(** The correlation part of [get_comprehensive_stock_info], for a sector
    other than "Unknown". *)
Definition correlation_part (ticker_symbol sector : string)
    : option Summary.t * list Entry.t :=
  match
    (inr (analyze_stock_impact yf_history series_corr executor_submit timed_out
            now_isoformat ticker_symbol sector) : exn + Impact.t)
  with
  | inr impact_analysis =>
      (Some {| Summary.total_analyzed :=
                 Summary.total_analyzed (Impact.summary impact_analysis);
               Summary.average_correlation :=
                 Summary.average_correlation (Impact.summary impact_analysis);
               Summary.max_correlation :=
                 Summary.max_correlation (Impact.summary impact_analysis);
               Summary.market_influence :=
                 Summary.market_influence (Impact.summary impact_analysis) |},
       firstn 8 (Impact.related_stocks impact_analysis))
  | inl e =>
      (Some {| Summary.total_analyzed := 0;
               Summary.average_correlation := Fin 0;
               Summary.max_correlation := Fin 0;
               Summary.market_influence := "Error" |},
       [])
  end.

Definition get_comprehensive_stock_info (company_name : string) : StockInfo.t :=
  if negb (nonempty company_name) || negb (nonempty (strip company_name))
  then no_info "" "No company name provided"
  else
    let ticker_symbol := get_ticker_symbol company_name in
    if negb (nonempty ticker_symbol)
    then no_info "" "Could not find ticker symbol"
    else
      match stock_info ticker_symbol with
      | inr None => no_info ticker_symbol "Could not fetch stock information"
      | inr (Some info) =>
          let sector := get_or (Info.sector info) "Unknown" in
          let industry := get_or (Info.industry info) "Unknown" in
          let market_cap := get_or (Info.marketCap info) 0%Z in
          let country := get_or (Info.country info) "Unknown" in
          let website := get_or (Info.website info) "" in
          let business_summary := get_or (Info.longBusinessSummary info) "" in
          let employee_count := get_or (Info.fullTimeEmployees info) 0%Z in
          let sector :=
            if String.eqb sector "Unknown" && negb (String.eqb industry "Unknown")
            then infer_sector_from_industry lower industry
            else sector in
          let '(correlation_analysis, related_stocks) :=
            if negb (String.eqb sector "Unknown")
            then correlation_part ticker_symbol sector
            else (None, []) in
          {| StockInfo.ticker := ticker_symbol;
             StockInfo.sector := sector;
             StockInfo.industry := industry;
             StockInfo.market_cap := market_cap;
             StockInfo.country := country;
             StockInfo.website := website;
             StockInfo.business_summary := shorten business_summary;
             StockInfo.employee_count := employee_count;
             StockInfo.correlation_analysis := correlation_analysis;
             StockInfo.related_stocks := related_stocks;
             StockInfo.error := None |}
      | inl e =>
          {| StockInfo.ticker := ticker_symbol;
             StockInfo.sector := "Unknown";
             StockInfo.industry := "Unknown";
             StockInfo.market_cap := 0;
             StockInfo.country := "Unknown";
             StockInfo.website := "";
             StockInfo.business_summary := "";
             StockInfo.employee_count := 0;
             StockInfo.correlation_analysis := None;
             StockInfo.related_stocks := [];
             StockInfo.error := Some (str e) |}
      end.

(** [get_correlation_analysis] of [multi_page_app.py]. *)
Definition get_correlation_analysis (ticker : string) : Api.t :=
  match load_models with
  | Some e => {| Api.success := false; Api.data := None; Api.error := Some (str e) |}
  | None =>
      let stock_info := get_comprehensive_stock_info ticker in
      match StockInfo.correlation_analysis stock_info with
      | Some correlation_analysis =>
          {| Api.success := true;
             Api.data := Some (ticker, correlation_analysis,
                               StockInfo.related_stocks stock_info);
             Api.error := None |}
      | None =>
          {| Api.success := false;
             Api.data := None;
             Api.error := Some "Could not perform correlation analysis" |}
      end
  end.

End StockInformation.

(** ** Specification vocabulary *)

(** The three labels of a downgraded correlation record. *)
Definition sentinel_labels : list string :=
  ["No Data"; "Insufficient Data"; "Error"].

(** The five labels of the strength ladder. *)
Definition strength_labels : list string :=
  ["Very Strong"; "Strong"; "Moderate"; "Weak"; "Very Weak"].




(** Descending order of a sort key. *)
Definition desc {A : Type} (key : A -> float) (a b : A) : Prop :=
  fge (key a) (key b) = true.


(** What one pass of the collection loop appends. *)
Definition task_entries
    (yf_history : string -> string -> exn + Series)
    (series_corr : Series -> Series -> exn + float)
    (timed_out : nat -> bool)
    (primary_ticker : string) (task : nat * string * string) : list Entry.t :=
  let '(i, stock, category) := task in
  if timed_out i then []
  else
    let correlation_data :=
      calculate_correlation yf_history series_corr primary_ticker stock "1y" in
    if fne (Corr.correlation correlation_data) (Fin 0)
    then [entry_of stock category correlation_data]
    else [].

(** The two ways out of [calculate_correlation]. *)
Inductive outcome
    (yf_history : string -> string -> exn + Series)
    (series_corr : Series -> Series -> exn + float)
    (ticker1 ticker2 period : string) : Corr.t -> Prop :=
| outcome_sentinel : forall label,
    In label sentinel_labels ->
    outcome yf_history series_corr ticker1 ticker2 period (sentinel label)
| outcome_value : forall data1 data2 correlation,
    get_stock_price_data yf_history ticker1 period = Some data1 ->
    get_stock_price_data yf_history ticker2 period = Some data2 ->
    (30 <= List.length (combine data1 data2))%nat ->
    series_corr (dropna (pct_change (stock1 (combine data1 data2))))
                (dropna (pct_change (stock2 (combine data1 data2)))) =
      inr correlation ->
    outcome yf_history series_corr ticker1 ticker2 period
      {| Corr.correlation := round3 correlation;
         Corr.strength := strength_of correlation;
         Corr.direction := Some (direction_of correlation);
         Corr.data_points :=
           Some (List.length (dropna (pct_change (stock1 (combine data1 data2)))));
         Corr.p_value := None |}.

(** ** A sample world *)

Module Sample.

(** [n] daily closes from day [d], rising by one from [p]. *)
Fixpoint ramp (n : nat) (d : Z) (p : Z) : Series :=
  match n with
  | O => []
  | S n' => (d, Fin (inject_Z p)) :: ramp n' (d + 1)%Z (p + 1)%Z
  end.

(** A year of AAPL; shorter histories for three peers; a failing and an
    empty history; a flat one. *)
Definition yf_history (ticker period : string) : exn + Series :=
  if String.eqb ticker "AAPL" then inr (ramp 60 0 100)
  else if String.eqb ticker "MSFT" then inr (ramp 30 0 50)
  else if String.eqb ticker "GOOGL" then inr (ramp 41 0 200)
  else if String.eqb ticker "META" then inr (ramp 81 0 300)
  else if String.eqb ticker "NVDA" then inr (ramp 10 0 400)
  else if String.eqb ticker "CRM" then inl (Exception "No data found, symbol may be delisted")
  else inr [].

(** A stand-in for Pearson's coefficient: a value fixed by the number
    of returns of the second series. *)
Definition series_corr (returns1 returns2 : Series) : exn + float :=
  let n := List.length returns2 in
  if (n =? 29)%nat then inr (Fin (1 # 2))
  else if (n =? 40)%nat then inr (Fin (- (8 # 10)))
  else if (n =? 59)%nat then inr (Fin (4996 # 10000))
  else inl (Exception "corr").

Definition executor_submit (i : nat) : option exn := None.

Definition failing_submit (i : nat) : option exn :=
  if (i =? 3)%nat then Some (Exception "can't start new thread") else None.

Definition timed_out (i : nat) : bool := (i =? 2)%nat.

Definition now_isoformat : string := "2024-01-01T00:00:00".

(** The entry made for MSFT as a sector peer of AAPL. *)
Definition msft_entry : Entry.t :=
  {| Entry.ticker := "MSFT";
     Entry.relationship_type := "sector_peers";
     Entry.correlation := Fin (1 # 2);
     Entry.strength := "Moderate";
     Entry.direction := "Positive";
     Entry.impact_score := Fin (100 # 2) |}.

(** [str.lower] and [str.strip] on ASCII text. *)
Definition lower_ascii (c : ascii) : ascii :=
  let n := nat_of_ascii c in
  if ((65 <=? n) && (n <=? 90))%nat then ascii_of_nat (n + 32) else c.

Fixpoint lower (s : string) : string :=
  match s with
  | EmptyString => EmptyString
  | String c s' => String (lower_ascii c) (lower s')
  end.

Definition is_space (c : ascii) : bool :=
  let n := nat_of_ascii c in
  ((9 <=? n) && (n <=? 13) || (28 <=? n) && (n <=? 32))%nat.

Fixpoint lstrip (s : string) : string :=
  match s with
  | EmptyString => EmptyString
  | String c s' => if is_space c then lstrip s' else s
  end.

Fixpoint rstrip (s : string) : string :=
  match s with
  | EmptyString => EmptyString
  | String c s' =>
      match rstrip s' with
      | EmptyString => if is_space c then EmptyString else String c EmptyString
      | r => String c r
      end
  end.

Definition strip (s : string) : string := rstrip (lstrip s).

(** A search service that knows Apple and fails on anything else. *)
Definition requests_get (url : string) : exn + Response.t :=
  if String.eqb url
       "https://query2.finance.yahoo.com/v1/finance/search?q=Apple&quotesCount=5&enableFuzzyQuery=false"
  then inr {| Response.status_code := 200;
              Response.quotes :=
                inr [ {| Quote.symbol := "APLE";
                         Quote.longname := "";
                         Quote.shortname := "Hospitality REIT" |};
                      {| Quote.symbol := "AAPL";
                         Quote.longname := "Apple Inc.";
                         Quote.shortname := "" |} ] |}
  else inl (Exception "connection timed out").

Fixpoint repeat_string (n : nat) (s : string) : string :=
  match n with
  | O => EmptyString
  | S n' => (s ++ repeat_string n' s)%string
  end.

(** Stock information without a sector for AAPL, none at all for TCS.NS. *)
Definition stock_info (ticker : string) : exn + option Info.t :=
  if String.eqb ticker "AAPL"
  then inr (Some {| Info.sector := None;
                    Info.industry := Some "Consumer Electronics";
                    Info.marketCap := Some 3000000000000%Z;
                    Info.country := Some "United States";
                    Info.website := Some "https://www.apple.com";
                    Info.longBusinessSummary :=
                      Some (repeat_string 60 "Apple Inc. ");
                    Info.fullTimeEmployees := Some 164000%Z |})
  else if String.eqb ticker "TCS.NS" then inr None
  else inl (Exception "404 Client Error").

(** A pool none of whose futures answers in time. *)
Definition always_timed_out (i : nat) : bool := true.

End Sample.

(** ** The impact network *)

Module Node.
Record t : Type := mk {
  id : string;
  label : string;
  color : string;
  size : float;
  relationship : string
}.
End Node.

Module Edge.
Record t : Type := mk {
  from : string;
  to : string;
  width : float;
  color : string;
  correlation : float
}.
End Edge.

Module Network.
(** The dict returned by [get_impact_network_data]. *)
Record t : Type := mk {
  nodes : list Node.t;
  edges : list Edge.t
}.
End Network.

(** The colour chosen for a result in [get_impact_network_data]. *)
Definition network_color (correlation : float) : string :=
  if fge (fabs correlation) (Fin (6 # 10)) then "#e74c3c"
  else if fge (fabs correlation) (Fin (4 # 10)) then "#f39c12"
  else "#3498db".

(** The loop of [get_impact_network_data]. *)
Fixpoint network_loop (correlation_results : list Entry.t)
    (nodes : list Node.t) (edges : list Edge.t) : list Node.t * list Edge.t :=
  match correlation_results with
  | [] => (nodes, edges)
  | result :: rest =>
      let color := network_color (Entry.correlation result) in
      network_loop rest
        (nodes ++
         [{| Node.id := Entry.ticker result;
             Node.label := Entry.ticker result;
             Node.color := color;
             Node.size := fadd (fmul (fabs (Entry.correlation result)) (Fin 50)) (Fin 10);
             Node.relationship := Entry.relationship_type result |}])
        (edges ++
         [{| Edge.from := "primary";
             Edge.to := Entry.ticker result;
             Edge.width := fmul (fabs (Entry.correlation result)) (Fin 5);
             Edge.color := color;
             Edge.correlation := Entry.correlation result |}])
  end.

Definition get_impact_network_data (correlation_results : list Entry.t) : Network.t :=
  let '(nodes, edges) := network_loop correlation_results [] [] in
  {| Network.nodes := nodes; Network.edges := edges |}.

(** ** Vocabulary for the catalog *)

(** The market test of [find_sector_peers]. *)
Definition is_indian (ticker : string) : bool :=
  endswith ticker ".NS" || endswith ticker ".BO".

(** The catalog [find_sector_peers] reads for a ticker. *)
Definition catalog_of (ticker : string) : dict (list string) :=
  if is_indian ticker then indian_sectors else sector_mapping.

(** The three keys of the dict of [get_related_stocks]. *)
Definition categories : list string :=
  ["sector_peers"; "industry_peers"; "competitors"].

Fixpoint nodupb (l : list string) : bool :=
  match l with
  | [] => true
  | x :: l' => negb (existsb (String.eqb x) l') && nodupb l'
  end.

(** The node and the edge [get_impact_network_data] makes for a result. *)
Definition node_of (result : Entry.t) : Node.t :=
  {| Node.id := Entry.ticker result;
     Node.label := Entry.ticker result;
     Node.color := network_color (Entry.correlation result);
     Node.size := fadd (fmul (fabs (Entry.correlation result)) (Fin 50)) (Fin 10);
     Node.relationship := Entry.relationship_type result |}.

Definition edge_of (result : Entry.t) : Edge.t :=
  {| Edge.from := "primary";
     Edge.to := Entry.ticker result;
     Edge.width := fmul (fabs (Entry.correlation result)) (Fin 5);
     Edge.color := network_color (Entry.correlation result);
     Edge.correlation := Entry.correlation result |}.

(** Descending order of node sizes. *)
Definition size_ge (a b : Node.t) : Prop := fge (Node.size a) (Node.size b) = true.

(** ** Display of a correlation ([enhanced_stock_info.py]) *)

Module Display.
(** The dict returned by [format_correlation_strength]. *)
Record t : Type := mk {
  strength : string;
  color : string;
  direction : string
}.
End Display.

Definition format_correlation_strength (correlation : float) : Display.t :=
  let abs_corr := fabs correlation in
  let '(strength, color) :=
    if fge abs_corr (Fin (8 # 10)) then ("Very Strong", "#e74c3c")
    else if fge abs_corr (Fin (6 # 10)) then ("Strong", "#f39c12")
    else if fge abs_corr (Fin (4 # 10)) then ("Moderate", "#f1c40f")
    else if fge abs_corr (Fin (2 # 10)) then ("Weak", "#3498db")
    else ("Very Weak", "#95a5a6") in
  {| Display.strength := strength;
     Display.color := color;
     Display.direction :=
       if fgt correlation (Fin 0) then "Positive"
       else if flt correlation (Fin 0) then "Negative"
       else "Neutral" |}.

(** The sectors the Indian catalog lacks. *)
Definition default_only_sectors : list string :=
  ["Real Estate"; "Utilities"; "Basic Materials"].

(** * Properties *)

(** ** Order on floats *)

Lemma Qle_bool_spec (a b : Q) : reflect (a <= b)%Q (Qle_bool a b).
Proof.
  destruct (Qle_bool a b) eqn:E; constructor.
  - now apply Qle_bool_iff.
  - intro H. apply Qle_bool_iff in H. congruence.
Qed.

Lemma Qeq_bool_spec (a b : Q) : reflect (a == b)%Q (Qeq_bool a b).
Proof.
  destruct (Qeq_bool a b) eqn:E; constructor.
  - now apply Qeq_bool_iff.
  - intro H. apply Qeq_bool_iff in H. congruence.
Qed.

Ltac float_cases :=
  unfold fge, fgt, fne, flt, feq, Qlt_bool in *;
  repeat match goal with
    | x : float |- _ => destruct x
    | b : bool |- _ => destruct b
    end;
  simpl in *; try congruence; try reflexivity;
  repeat match goal with
    | H : context [Qle_bool ?a ?b] |- _ => destruct (Qle_bool_spec a b); simpl in H
    | |- context [Qle_bool ?a ?b] => destruct (Qle_bool_spec a b); simpl
    | H : context [Qeq_bool ?a ?b] |- _ => destruct (Qeq_bool_spec a b); simpl in H
    | |- context [Qeq_bool ?a ?b] => destruct (Qeq_bool_spec a b); simpl
    end;
  try congruence; try reflexivity; try (exfalso; lra).

Lemma fgt_fge (x y : float) : fgt x y = true -> fge x y = true.
Proof. unfold fge, fgt. intros ->. reflexivity. Qed.

Lemma fge_total (x y : float) :
  is_nan x = false -> is_nan y = false -> fgt y x = false -> fge x y = true.
Proof. intros Hx Hy H. float_cases. Qed.

Lemma fge_trans (x y z : float) :
  fge x y = true -> fge y z = true -> fge x z = true.
Proof. intros H1 H2. float_cases. Qed.


Lemma fge_06_04 (x : float) :
  fge x (Fin (6 # 10)) = true -> fge x (Fin (4 # 10)) = true.
Proof. intros H. apply (fge_trans _ _ _ H). reflexivity. Qed.

Lemma fabs_nan (x : float) : is_nan (fabs x) = is_nan x.
Proof. destruct x; reflexivity. Qed.

(** ** The stable descending sort *)

Section Sorting.

Context {A : Type} (key : A -> float).

Lemma insert_desc_perm (x : A) (l : list A) :
  Permutation (x :: l) (insert_desc key x l).
Proof.
  induction l as [|y l IH]; simpl.
  - reflexivity.
  - destruct (fgt (key y) (key x)).
    + rewrite perm_swap. apply perm_skip. exact IH.
    + reflexivity.
Qed.

Lemma sort_desc_perm (l : list A) : Permutation l (sort_desc key l).
Proof.
  induction l as [|x l IH]; simpl.
  - reflexivity.
  - rewrite <- insert_desc_perm. now apply perm_skip.
Qed.

Lemma sort_desc_In (x : A) (l : list A) : In x (sort_desc key l) <-> In x l.
Proof.
  split; apply Permutation_in; [symmetry|]; apply sort_desc_perm.
Qed.

Lemma sort_desc_length (l : list A) : List.length (sort_desc key l) = List.length l.
Proof. symmetry. apply Permutation_length, sort_desc_perm. Qed.

Lemma sort_desc_nil (l : list A) : sort_desc key l = [] <-> l = [].
Proof.
  split; intros H.
  - apply length_zero_iff_nil. rewrite <- sort_desc_length, H. reflexivity.
  - subst. reflexivity.
Qed.

Lemma insert_desc_sorted (x : A) (l : list A) :
  is_nan (key x) = false ->
  Forall (fun y => is_nan (key y) = false) l ->
  StronglySorted (desc key) l ->
  StronglySorted (desc key) (insert_desc key x l).
Proof.
  intros Hx Hl Hs. induction Hs as [|y l Hs IH Hy]; simpl.
  - constructor; constructor.
  - inversion Hl as [|? ? Hny Hl']; subst.
    destruct (fgt (key y) (key x)) eqn:E.
    + constructor.
      * apply IH. exact Hl'.
      * apply Forall_forall. intros z Hz.
        apply (Permutation_in _ (Permutation_sym (insert_desc_perm x l))) in Hz.
        destruct Hz as [<- | Hz].
        -- now apply fgt_fge.
        -- rewrite Forall_forall in Hy. now apply Hy.
    + assert (Hxy : desc key x y) by now apply fge_total.
      constructor.
      * now constructor.
      * constructor; [exact Hxy|].
        apply Forall_forall. intros z Hz.
        rewrite Forall_forall in Hy.
        apply (fge_trans _ (key y)); [exact Hxy | now apply Hy].
Qed.

Lemma sort_desc_sorted (l : list A) :
  Forall (fun y => is_nan (key y) = false) l ->
  StronglySorted (desc key) (sort_desc key l).
Proof.
  induction 1 as [|x l Hx Hl IH]; simpl.
  - constructor.
  - apply insert_desc_sorted; [exact Hx | | exact IH].
    apply Forall_forall. intros y Hy. apply (proj1 (sort_desc_In y l)) in Hy.
    rewrite Forall_forall in Hl. apply Hl. exact Hy.
Qed.



End Sorting.

(** ** The candidate list *)

Lemma py_in_str_tuples (stock : string) (l : list (string * string)) :
  py_in (PyStr stock) (as_tuples l) = false.
Proof.
  unfold py_in, as_tuples. induction l as [|p l IH]; simpl; [reflexivity | exact IH].
Qed.

Lemma add_stocks_appends (category : string) (stocks : list string)
    (all_related : list (string * string)) :
  add_stocks category stocks all_related =
  all_related ++ map (fun stock => (stock, category)) stocks.
Proof.
  revert all_related. induction stocks as [|stock rest IH]; intros all_related; simpl.
  - now rewrite app_nil_r.
  - rewrite py_in_str_tuples. simpl. rewrite IH, <- app_assoc. reflexivity.
Qed.

Lemma add_categories_appends (items : dict (list string))
    (all_related : list (string * string)) :
  add_categories items all_related =
  all_related ++
  flat_map (fun item => map (fun stock => (stock, fst item)) (snd item)) items.
Proof.
  revert all_related. induction items as [|[category stocks] rest IH];
    intros all_related; simpl.
  - now rewrite app_nil_r.
  - rewrite IH, add_stocks_appends, <- app_assoc. reflexivity.
Qed.

Lemma all_related_of_flat (items : dict (list string)) :
  all_related_of items =
  flat_map (fun item => map (fun stock => (stock, fst item)) (snd item)) items.
Proof. unfold all_related_of. now rewrite add_categories_appends. Qed.


(** C1. The candidate list of [analyze_stock_impact] is not deduplicated:
    the membership test compares a ticker string with (ticker, category)
    tuples and never succeeds, so every ticker of every category is
    appended.  For AAPL in Technology the list has 13 pairs, with MSFT, GOOGL
    and CRM twice and META and NVDA three times. *)
Theorem all_related_keeps_duplicates :
  all_related_of (get_related_stocks "AAPL" "Technology" "") =
    [ ("MSFT", "sector_peers"); ("GOOGL", "sector_peers"); ("META", "sector_peers");
      ("NVDA", "sector_peers"); ("CRM", "sector_peers");
      ("META", "industry_peers"); ("NVDA", "industry_peers");
      ("CRM", "industry_peers"); ("ORCL", "industry_peers");
      ("MSFT", "competitors"); ("GOOGL", "competitors");
      ("META", "competitors"); ("NVDA", "competitors") ]
  /\ ~ NoDup (map fst (all_related_of (get_related_stocks "AAPL" "Technology" ""))).
Proof.
  split; [reflexivity|].
  intros H. change (NoDup ("MSFT" :: ["GOOGL"; "META"; "NVDA"; "CRM";
    "META"; "NVDA"; "CRM"; "ORCL"; "MSFT"; "GOOGL"; "META"; "NVDA"])) in H.
  apply NoDup_cons_iff in H. destruct H as [H _]. apply H.
  simpl. do 8 right. left. reflexivity.
Qed.

Lemma strength_of_label (c : float) : In (strength_of c) strength_labels.
Proof.
  unfold strength_of, strength_labels.
  repeat match goal with
    | |- context [if ?b then _ else _] => destruct b
    end; simpl; tauto.
Qed.

(** ** The engine, unfolded *)

Section EngineFacts.

Variable yf_history : string -> string -> exn + Series.
Variable series_corr : Series -> Series -> exn + float.
Variable executor_submit : nat -> option exn.
Variable timed_out : nat -> bool.
Variable now_isoformat : string.

Local Abbreviation price_data := (get_stock_price_data yf_history).
Local Abbreviation correlate := (calculate_correlation yf_history series_corr).
Local Abbreviation entries := (task_entries yf_history series_corr timed_out).
Local Abbreviation body :=
  (analyze_stock_impact_body yf_history series_corr executor_submit timed_out
     now_isoformat).

Lemma price_data_none (ticker period : string) :
  price_data ticker period = None <->
  (exists e, yf_history ticker period = inl e) \/ yf_history ticker period = inr [].
Proof.
  unfold get_stock_price_data.
  destruct (yf_history ticker period) as [e | [|x data]]; split;
    try discriminate; try reflexivity.
  - intros _. left. now exists e.
  - intros _. now right.
  - intros [[e H] | H]; discriminate.
Qed.

Lemma calculate_correlation_outcome (ticker1 ticker2 period : string) :
  outcome yf_history series_corr ticker1 ticker2 period (correlate ticker1 ticker2 period).
Proof.
  unfold calculate_correlation.
  destruct (price_data ticker1 period) as [data1|] eqn:E1;
    [|apply outcome_sentinel; simpl; tauto].
  destruct (price_data ticker2 period) as [data2|] eqn:E2;
    [|apply outcome_sentinel; simpl; tauto].
  destruct (List.length (combine data1 data2) <? 30)%nat eqn:E3;
    [apply outcome_sentinel; simpl; tauto|].
  apply Nat.ltb_ge in E3.
  destruct (series_corr _ _) as [e|correlation] eqn:E4;
    [apply outcome_sentinel; simpl; tauto|].
  now apply (outcome_value _ _ _ _ _ data1 data2 correlation).
Qed.

Lemma collect_appends (primary_ticker : string) (futures : list Task)
    (correlation_results : list Entry.t) :
  collect yf_history series_corr timed_out primary_ticker futures correlation_results =
  correlation_results ++ flat_map (entries primary_ticker) futures.
Proof.
  revert correlation_results.
  induction futures as [|[[i stock] category] rest IH]; intros results; simpl.
  - now rewrite app_nil_r.
  - rewrite IH. destruct (timed_out i); [reflexivity|].
    destruct (fne _ _); [|reflexivity].
    now rewrite <- app_assoc.
Qed.

Lemma submit_all_tasks (i : nat) (all_related : list (string * string))
    (futures : list Task) :
  submit_all executor_submit i all_related = inr futures ->
  map (fun task : Task => (snd (fst task), snd task)) futures = all_related.
Proof.
  revert i futures.
  induction all_related as [|[stock category] rest IH]; intros i futures; simpl.
  - intros [= <-]. reflexivity.
  - destruct (executor_submit i); [discriminate|].
    destruct (submit_all executor_submit (S i) rest) as [e|fs] eqn:E; [discriminate|].
    intros [= <-]. simpl. f_equal. now apply (IH (S i)).
Qed.

Lemma entries_In (primary_ticker : string) (task : Task) (r : Entry.t) :
  In r (entries primary_ticker task) ->
  r = entry_of (snd (fst task)) (snd task)
        (correlate primary_ticker (snd (fst task)) "1y") /\
  fne (Corr.correlation (correlate primary_ticker (snd (fst task)) "1y")) (Fin 0) = true.
Proof.
  destruct task as [[i stock] category]. unfold task_entries. simpl.
  destruct (timed_out i); [intros []|].
  destruct (fne _ _) eqn:E; [|intros []].
  intros [<- | []]. split; reflexivity.
Qed.


(** A completed analysis, field by field. *)
Lemma body_completed (primary_ticker sector : string) (result : Impact.t) :
  body primary_ticker sector = inr result ->
  exists futures,
    submit_all executor_submit 0
      (all_related_of (get_related_stocks primary_ticker sector "")) = inr futures /\
    let correlation_results :=
      sort_desc abs_correlation (flat_map (entries primary_ticker) futures) in
    Impact.primary_ticker result = primary_ticker /\
    Impact.related_stocks result = correlation_results /\
    Impact.timestamp result = Some now_isoformat /\
    Impact.error result = None /\
    Summary.total_analyzed (Impact.summary result) = List.length correlation_results /\
    (correlation_results = [] ->
       Impact.summary result =
         {| Summary.total_analyzed := 0;
            Summary.average_correlation := Fin 0;
            Summary.max_correlation := Fin 0;
            Summary.market_influence := "Unknown" |}) /\
    (correlation_results <> [] ->
       Summary.market_influence (Impact.summary result) =
         influence_of (fmean (map abs_correlation correlation_results))).
Proof.
  unfold analyze_stock_impact_body.
  destruct (submit_all _ _ _) as [e|futures] eqn:E; [discriminate|].
  rewrite collect_appends. simpl app.
  destruct (sort_desc abs_correlation (flat_map (entries primary_ticker) futures))
    as [|r rs] eqn:Es; intros [= <-]; exists futures; (split; [reflexivity|]);
    cbv zeta; rewrite Es; simpl; repeat split; try reflexivity; try congruence.
Qed.

End EngineFacts.

(** ** Returns of a price series *)







(** ** Pairwise correlation *)

Section Correlation.

Variable yf_history : string -> string -> exn + Series.
Variable series_corr : Series -> Series -> exn + float.

Local Abbreviation price_data := (get_stock_price_data yf_history).
Local Abbreviation correlate := (calculate_correlation yf_history series_corr).


Lemma strength_labels_not_sentinel (label : string) :
  In label strength_labels -> ~ In label sentinel_labels.
Proof.
  unfold strength_labels, sentinel_labels. simpl.
  intros H. repeat (destruct H as [<- | H]; [intuition discriminate|]).
  destruct H.
Qed.



(** C8.  When the price history of either ticker cannot be had, because
    retrieving it raised or because it came back empty,
    [calculate_correlation] returns the "No Data" sentinel: coefficient
    0.0, strength "No Data".  A failure of retrieval is absorbed by
    [get_stock_price_data], and the function has a result on every input. *)
Theorem no_data_sentinel (ticker1 ticker2 period : string) :
  ((exists e, yf_history ticker1 period = inl e) \/ yf_history ticker1 period = inr [] \/
   (exists e, yf_history ticker2 period = inl e) \/ yf_history ticker2 period = inr []) ->
  correlate ticker1 ticker2 period =
    {| Corr.correlation := Fin 0;
       Corr.strength := "No Data";
       Corr.direction := None;
       Corr.data_points := None;
       Corr.p_value := Some (Fin 1) |}.
Proof.
  intros H.
  assert (H' : price_data ticker1 period = None \/ price_data ticker2 period = None).
  { destruct H as [H | [H | [H | H]]].
    - left. apply price_data_none. now left.
    - left. apply price_data_none. now right.
    - right. apply price_data_none. now left.
    - right. apply price_data_none. now right. }
  unfold calculate_correlation.
  destruct H' as [-> | H']; [reflexivity|].
  rewrite H'. destruct (price_data ticker1 period); reflexivity.
Qed.

(** C10.  A result of [calculate_correlation] whose strength is "No
    Data", "Insufficient Data" or "Error" holds a coefficient of 0.0, that
    label and a p_value of 1.0, and neither a direction nor a sample size;
    any other result holds a direction and a sample size and no p_value.
    The analyzer writes "Neutral" as the direction of an entry made from
    a record without a direction. *)
Theorem sentinel_shape (ticker1 ticker2 period : string) :
  (In (Corr.strength (correlate ticker1 ticker2 period)) sentinel_labels ->
     correlate ticker1 ticker2 period =
       {| Corr.correlation := Fin 0;
          Corr.strength := Corr.strength (correlate ticker1 ticker2 period);
          Corr.direction := None;
          Corr.data_points := None;
          Corr.p_value := Some (Fin 1) |}) /\
  (~ In (Corr.strength (correlate ticker1 ticker2 period)) sentinel_labels ->
     Corr.direction (correlate ticker1 ticker2 period) <> None /\
     Corr.data_points (correlate ticker1 ticker2 period) <> None /\
     Corr.p_value (correlate ticker1 ticker2 period) = None) /\
  (forall stock category correlation_data,
     Corr.direction correlation_data = None ->
     Entry.direction (entry_of stock category correlation_data) = "Neutral").
Proof.
  split; [|split].
  - intros H.
    destruct (calculate_correlation_outcome yf_history series_corr ticker1 ticker2 period)
      as [label Hl | data1 data2 c H1 H2 H3 H4].
    + reflexivity.
    + cbn [Corr.strength] in H. exfalso.
      exact (strength_labels_not_sentinel _ (strength_of_label c) H).
  - intros H.
    destruct (calculate_correlation_outcome yf_history series_corr ticker1 ticker2 period)
      as [label Hl | data1 data2 c H1 H2 H3 H4].
    + contradiction.
    + simpl. repeat split; discriminate.
  - intros stock category cd H. unfold entry_of. simpl. now rewrite H.
Qed.

End Correlation.

(** ** Impact analysis *)

Section Analysis.

Variable yf_history : string -> string -> exn + Series.
Variable series_corr : Series -> Series -> exn + float.
Variable executor_submit : nat -> option exn.
Variable timed_out : nat -> bool.
Variable now_isoformat : string.

Local Abbreviation correlate := (calculate_correlation yf_history series_corr).
Local Abbreviation entries := (task_entries yf_history series_corr timed_out).
Local Abbreviation body :=
  (analyze_stock_impact_body yf_history series_corr executor_submit timed_out
     now_isoformat).
Local Abbreviation analyze :=
  (analyze_stock_impact yf_history series_corr executor_submit timed_out
     now_isoformat).

Lemma analyze_completed (primary_ticker sector : string) (result : Impact.t) :
  body primary_ticker sector = inr result ->
  analyze primary_ticker sector = result.
Proof. unfold analyze_stock_impact. now intros ->. Qed.

Lemma analyze_failed (primary_ticker sector : string) (e : exn) :
  body primary_ticker sector = inl e ->
  analyze primary_ticker sector =
    {| Impact.primary_ticker := primary_ticker;
       Impact.related_stocks := [];
       Impact.summary :=
         {| Summary.total_analyzed := 0;
            Summary.average_correlation := Fin 0;
            Summary.max_correlation := Fin 0;
            Summary.market_influence := "Error" |};
       Impact.timestamp := None;
       Impact.error := Some (str e) |}.
Proof. unfold analyze_stock_impact. now intros ->. Qed.

(** What every collected entry was made from. *)
Lemma collected_entry (primary_ticker : string) (futures : list Task) (r : Entry.t) :
  In r (flat_map (entries primary_ticker) futures) ->
  exists stock category,
    In (stock, category) (map (fun task : Task => (snd (fst task), snd task)) futures) /\
    r = entry_of stock category (correlate primary_ticker stock "1y") /\
    fne (Corr.correlation (correlate primary_ticker stock "1y")) (Fin 0) = true.
Proof.
  intros H. apply in_flat_map in H. destruct H as [task [Ht Hr]].
  apply entries_In in Hr. destruct Hr as [-> Hne].
  exists (snd (fst task)), (snd task). repeat split; [|exact Hne].
  apply in_map_iff. now exists task.
Qed.

(** An entry with a coefficient other than 0.0 carries a computed value. *)
Lemma entry_value (primary_ticker stock category : string) :
  fne (Corr.correlation (correlate primary_ticker stock "1y")) (Fin 0) = true ->
  exists c,
    Entry.correlation (entry_of stock category (correlate primary_ticker stock "1y")) =
      round3 c /\
    Entry.strength (entry_of stock category (correlate primary_ticker stock "1y")) =
      strength_of c /\
    Entry.direction (entry_of stock category (correlate primary_ticker stock "1y")) =
      direction_of c /\
    (exists returns1 returns2, series_corr returns1 returns2 = inr c).
Proof.
  intros Hne.
  destruct (calculate_correlation_outcome yf_history series_corr primary_ticker stock "1y")
    as [label Hl | data1 data2 c H1 H2 H3 H4].
  - discriminate.
  - exists c. repeat split. eauto.
Qed.

(** C2.  [analyze_stock_impact] has a result on every input.  When the
    body of its [try] fails with an exception, the result has an empty
    list of related stocks, a summary with market influence "Error", zero
    analyzed stocks and zero average and maximum correlation, and the
    message of the exception in its error field; when the body completes,
    the result is the one it built. *)
Theorem analyze_never_raises (primary_ticker sector : string) :
  (forall e, body primary_ticker sector = inl e ->
     let result := analyze primary_ticker sector in
     Impact.related_stocks result = [] /\
     Summary.market_influence (Impact.summary result) = "Error" /\
     Summary.total_analyzed (Impact.summary result) = 0%nat /\
     Summary.average_correlation (Impact.summary result) = Fin 0 /\
     Summary.max_correlation (Impact.summary result) = Fin 0 /\
     Impact.error result = Some (str e)) /\
  (forall result, body primary_ticker sector = inr result ->
     analyze primary_ticker sector = result /\ Impact.error result = None).
Proof.
  split.
  - intros e H result. subst result. rewrite (analyze_failed _ _ _ H).
    repeat split.
  - intros result H. split; [now apply analyze_completed|].
    destruct (body_completed _ _ _ _ _ _ _ _ H) as [futures [_ Hf]].
    cbv zeta in Hf. tauto.
Qed.




(** C9, amended.  Every result of [analyze_stock_impact] holds the primary
    ticker, the related stocks and the summary.  The result of a completed
    analysis holds a timestamp and no error message; the result that
    stands for a failure holds the error message and no timestamp. *)
Theorem timestamp_presence (primary_ticker sector : string) :
  Impact.primary_ticker (analyze primary_ticker sector) = primary_ticker /\
  (forall result, body primary_ticker sector = inr result ->
     Impact.timestamp (analyze primary_ticker sector) = Some now_isoformat /\
     Impact.error (analyze primary_ticker sector) = None) /\
  (forall e, body primary_ticker sector = inl e ->
     Impact.timestamp (analyze primary_ticker sector) = None /\
     Impact.error (analyze primary_ticker sector) = Some (str e)).
Proof.
  split; [|split].
  - unfold analyze_stock_impact.
    destruct (body primary_ticker sector) as [e|result] eqn:H; [reflexivity|].
    destruct (body_completed _ _ _ _ _ _ _ _ H) as [futures [_ Hf]].
    cbv zeta in Hf. tauto.
  - intros result H. rewrite (analyze_completed _ _ _ H).
    destruct (body_completed _ _ _ _ _ _ _ _ H) as [futures [_ Hf]].
    cbv zeta in Hf. tauto.
  - intros e H. rewrite (analyze_failed _ _ _ H). split; reflexivity.
Qed.

End Analysis.

(** ** The properties at work on the sample world *)

Lemma sample_corr_no_nan (returns1 returns2 : Series) (c : float) :
  Sample.series_corr returns1 returns2 = inr c -> is_nan c = false.
Proof.
  unfold Sample.series_corr. cbv zeta.
  repeat match goal with
    | |- context [if ?b then _ else _] => destruct b
    end; intros [= <-]; reflexivity.
Qed.


(** The failure result of C9 as first stated: it has no timestamp. *)
Lemma error_result_has_no_timestamp :
  Impact.timestamp
    (analyze_stock_impact Sample.yf_history Sample.series_corr Sample.failing_submit
       Sample.timed_out Sample.now_isoformat "AAPL" "Technology") = None.
Proof. vm_compute. reflexivity. Qed.

Lemma analyze_never_raises_witness :
  analyze_stock_impact_body Sample.yf_history Sample.series_corr Sample.failing_submit
    Sample.timed_out Sample.now_isoformat "AAPL" "Technology" =
    inl (Exception "can't start new thread") /\
  Summary.market_influence
    (Impact.summary
       (analyze_stock_impact Sample.yf_history Sample.series_corr Sample.failing_submit
          Sample.timed_out Sample.now_isoformat "AAPL" "Technology")) = "Error" /\
  Impact.error
    (analyze_stock_impact Sample.yf_history Sample.series_corr Sample.failing_submit
       Sample.timed_out Sample.now_isoformat "AAPL" "Technology") =
    Some "can't start new thread".
Proof.
  assert (H : analyze_stock_impact_body Sample.yf_history Sample.series_corr
                Sample.failing_submit Sample.timed_out Sample.now_isoformat
                "AAPL" "Technology" = inl (Exception "can't start new thread"))
    by (vm_compute; reflexivity).
  split; [exact H|].
  pose proof (proj1 (analyze_never_raises Sample.yf_history Sample.series_corr
                       Sample.failing_submit Sample.timed_out Sample.now_isoformat
                       "AAPL" "Technology") _ H) as W.
  cbv zeta in W. split; [apply W | apply W].
Defined.



Lemma no_data_sentinel_witness :
  Sample.yf_history "CRM" "1y" = inl (Exception "No data found, symbol may be delisted") /\
  Corr.strength
    (calculate_correlation Sample.yf_history Sample.series_corr "AAPL" "CRM" "1y") =
    "No Data" /\
  Corr.correlation
    (calculate_correlation Sample.yf_history Sample.series_corr "AAPL" "CRM" "1y") =
    Fin 0.
Proof.
  assert (H : Sample.yf_history "CRM" "1y" =
              inl (Exception "No data found, symbol may be delisted"))
    by (vm_compute; reflexivity).
  split; [exact H|].
  rewrite (no_data_sentinel Sample.yf_history Sample.series_corr "AAPL" "CRM" "1y").
  - split; reflexivity.
  - right. right. left. eexists. exact H.
Defined.

Lemma sentinel_shape_witness :
  In (Corr.strength
        (calculate_correlation Sample.yf_history Sample.series_corr "AAPL" "NVDA" "1y"))
     sentinel_labels /\
  Corr.p_value
    (calculate_correlation Sample.yf_history Sample.series_corr "AAPL" "NVDA" "1y") =
    Some (Fin 1) /\
  Corr.direction
    (calculate_correlation Sample.yf_history Sample.series_corr "AAPL" "NVDA" "1y") =
    None /\
  Entry.direction
    (entry_of "NVDA" "sector_peers"
       (calculate_correlation Sample.yf_history Sample.series_corr "AAPL" "NVDA" "1y")) =
    "Neutral".
Proof.
  assert (H : In (Corr.strength
                    (calculate_correlation Sample.yf_history Sample.series_corr
                       "AAPL" "NVDA" "1y")) sentinel_labels)
    by (vm_compute; tauto).
  split; [exact H|].
  destruct (sentinel_shape Sample.yf_history Sample.series_corr "AAPL" "NVDA" "1y")
    as [W1 [_ W3]].
  assert (D : Corr.direction
                (calculate_correlation Sample.yf_history Sample.series_corr
                   "AAPL" "NVDA" "1y") = None) by (rewrite (W1 H); reflexivity).
  split; [|split].
  - rewrite (W1 H). reflexivity.
  - exact D.
  - apply W3. exact D.
Defined.




Lemma timestamp_presence_witness :
  analyze_stock_impact_body Sample.yf_history Sample.series_corr Sample.failing_submit
    Sample.timed_out Sample.now_isoformat "AAPL" "Technology" =
    inl (Exception "can't start new thread") /\
  Impact.error
    (analyze_stock_impact Sample.yf_history Sample.series_corr Sample.failing_submit
       Sample.timed_out Sample.now_isoformat "AAPL" "Technology") =
    Some "can't start new thread" /\
  Impact.timestamp
    (analyze_stock_impact Sample.yf_history Sample.series_corr Sample.executor_submit
       Sample.timed_out Sample.now_isoformat "AAPL" "Technology") =
    Some Sample.now_isoformat.
Proof.
  assert (H : analyze_stock_impact_body Sample.yf_history Sample.series_corr
                Sample.failing_submit Sample.timed_out Sample.now_isoformat
                "AAPL" "Technology" = inl (Exception "can't start new thread"))
    by (vm_compute; reflexivity).
  split; [exact H|]. split.
  - destruct (timestamp_presence Sample.yf_history Sample.series_corr
                Sample.failing_submit Sample.timed_out Sample.now_isoformat
                "AAPL" "Technology") as [_ [_ W]].
    exact (proj2 (W _ H)).
  - destruct (timestamp_presence Sample.yf_history Sample.series_corr
                Sample.executor_submit Sample.timed_out Sample.now_isoformat
                "AAPL" "Technology") as [_ [W _]].
    exact (proj1 (W (analyze_stock_impact Sample.yf_history Sample.series_corr
                       Sample.executor_submit Sample.timed_out Sample.now_isoformat
                       "AAPL" "Technology") ltac:(vm_compute; reflexivity))).
Defined.

(** * Further properties *)

(** ** Lists *)

Lemma firstn_In {A : Type} (n : nat) (l : list A) (x : A) :
  In x (firstn n l) -> In x l.
Proof.
  intros H. rewrite <- (firstn_skipn n l). apply in_or_app. now left.
Qed.

Lemma skipn_In {A : Type} (n : nat) (l : list A) (x : A) :
  In x (skipn n l) -> In x l.
Proof.
  intros H. rewrite <- (firstn_skipn n l). apply in_or_app. now right.
Qed.

Lemma firstn_In_le {A : Type} (m n : nat) (l : list A) (x : A) :
  (m <= n)%nat -> In x (firstn m l) -> In x (firstn n l).
Proof.
  intros Hmn H. apply (firstn_In m).
  rewrite firstn_firstn, Nat.min_l by exact Hmn. exact H.
Qed.

Lemma firstn_NoDup {A : Type} (n : nat) (l : list A) :
  NoDup l -> NoDup (firstn n l).
Proof.
  intros H. rewrite <- (firstn_skipn n l) in H. now apply NoDup_app_remove_r in H.
Qed.

Lemma nodupb_NoDup (l : list string) : nodupb l = true -> NoDup l.
Proof.
  induction l as [|x l IH]; simpl; [constructor|].
  intros H. apply andb_true_iff in H. destruct H as [Hx Hl].
  constructor; [|now apply IH].
  intros Hin. apply negb_true_iff in Hx.
  assert (E : existsb (String.eqb x) l = true).
  { apply existsb_exists. exists x. split; [exact Hin | apply String.eqb_refl]. }
  congruence.
Qed.

Lemma filter_ne_length (ticker : string) (l : list string) :
  NoDup l ->
  (List.length l - 1 <=
   List.length (filter (fun stock => negb (String.eqb stock ticker)) l))%nat.
Proof.
  induction 1 as [|x l Hx Hl IH]; simpl; [lia|].
  destruct (String.eqb_spec x ticker) as [->|Hne]; simpl; [|lia].
  rewrite (forallb_filter_id _ l); [lia|].
  apply forallb_forall. intros y Hy. apply negb_true_iff.
  apply String.eqb_neq. intros ->. contradiction.
Qed.

Lemma dict_get_In {V : Type} (d : dict V) (key : string) (default : V) :
  dict_get d key default = default \/ In (dict_get d key default) (map snd d).
Proof.
  induction d as [|[k v] d IH]; simpl; [now left|].
  destruct (String.eqb k key); [right; now left|].
  destruct IH as [IH | IH]; [now left | right; now right].
Qed.

(** ** The catalog *)

(** A check that holds of every list of a catalog holds of what
    [dict_get] finds in it. *)
Lemma catalog_forall (P : list string -> bool) (ticker sector : string) :
  P [] = true ->
  forallb P (map snd sector_mapping) = true ->
  forallb P (map snd indian_sectors) = true ->
  P (dict_get (catalog_of ticker) sector []) = true.
Proof.
  intros H0 Hus Hin. unfold catalog_of.
  destruct (is_indian ticker).
  - destruct (dict_get_In indian_sectors sector []) as [-> | H]; [exact H0|].
    rewrite forallb_forall in Hin. now apply Hin.
  - destruct (dict_get_In sector_mapping sector []) as [-> | H]; [exact H0|].
    rewrite forallb_forall in Hus. now apply Hus.
Qed.

Lemma find_sector_peers_unfold (ticker sector : string) :
  find_sector_peers ticker sector =
  firstn 8 (filter (fun stock => negb (String.eqb stock ticker))
              (dict_get (catalog_of ticker) sector [])).
Proof.
  unfold find_sector_peers, catalog_of, is_indian.
  destruct (endswith ticker ".NS" || endswith ticker ".BO"); reflexivity.
Qed.

Lemma catalog_NoDup (ticker sector : string) :
  NoDup (dict_get (catalog_of ticker) sector []).
Proof.
  apply nodupb_NoDup. apply catalog_forall; vm_compute; reflexivity.
Qed.

Lemma catalog_listed_length (ticker sector : string) :
  dict_get (catalog_of ticker) sector [] = [] \/
  (5 <= List.length (dict_get (catalog_of ticker) sector []))%nat.
Proof.
  pose proof (catalog_forall
                (fun l => match l with [] => true | _ => (5 <=? List.length l)%nat end)
                ticker sector eq_refl
                ltac:(vm_compute; reflexivity) ltac:(vm_compute; reflexivity)) as H.
  cbv beta in H.
  destruct (dict_get (catalog_of ticker) sector []); [now left | right; now apply Nat.leb_le].
Qed.

Lemma catalog_default_length (ticker sector : string) :
  is_indian ticker = false ->
  dict_get (catalog_of ticker) sector [] = [] \/
  List.length (dict_get (catalog_of ticker) sector []) = 10%nat.
Proof.
  intros Hm. unfold catalog_of. rewrite Hm.
  destruct (dict_get_In sector_mapping sector []) as [-> | H]; [now left|].
  right.
  assert (F : forallb (fun l : list string => (List.length l =? 10)%nat)
                (map snd sector_mapping) = true) by (vm_compute; reflexivity).
  rewrite forallb_forall in F. apply Nat.eqb_eq. now apply F.
Qed.

(** ** Peer resolution *)

Lemma peers_not_self (ticker sector : string) :
  ~ In ticker (find_sector_peers ticker sector).
Proof.
  rewrite find_sector_peers_unfold. intros H.
  apply firstn_In, filter_In in H. destruct H as [_ H].
  now rewrite String.eqb_refl in H.
Qed.

Lemma peers_NoDup (ticker sector : string) :
  NoDup (find_sector_peers ticker sector).
Proof.
  rewrite find_sector_peers_unfold.
  apply firstn_NoDup, NoDup_filter, catalog_NoDup.
Qed.

Lemma peers_listed (ticker sector peer : string) :
  In peer (find_sector_peers ticker sector) ->
  In peer (dict_get (catalog_of ticker) sector []).
Proof.
  rewrite find_sector_peers_unfold. intros H.
  apply firstn_In, filter_In in H. tauto.
Qed.

Lemma peers_length (ticker sector : string) :
  dict_get (catalog_of ticker) sector [] <> [] ->
  (4 <= List.length (find_sector_peers ticker sector))%nat /\
  (is_indian ticker = false -> List.length (find_sector_peers ticker sector) = 8%nat).
Proof.
  intros Hne. rewrite find_sector_peers_unfold, length_firstn.
  pose proof (filter_ne_length ticker _ (catalog_NoDup ticker sector)) as Hf.
  pose proof (filter_length_le (fun stock => negb (String.eqb stock ticker))
                (dict_get (catalog_of ticker) sector [])) as Hg.
  destruct (catalog_listed_length ticker sector) as [E | L5]; [contradiction|].
  split; [lia|].
  intros Hm. destruct (catalog_default_length ticker sector Hm) as [E | E];
    [contradiction | lia].
Qed.

(** X1.  The peers of a ticker never include the ticker itself, are at
    most eight, are pairwise distinct, and all come from the list the
    catalog of the ticker's market has for the sector. *)
Theorem find_sector_peers_sound (ticker sector : string) :
  ~ In ticker (find_sector_peers ticker sector) /\
  (List.length (find_sector_peers ticker sector) <= 8)%nat /\
  NoDup (find_sector_peers ticker sector) /\
  (forall peer, In peer (find_sector_peers ticker sector) ->
     In peer (dict_get (catalog_of ticker) sector [])).
Proof.
  split; [apply peers_not_self|].
  split; [unfold find_sector_peers; apply firstn_le_length|].
  split; [apply peers_NoDup|].
  intros peer. apply peers_listed.
Qed.

(** X2.  The market of the peers is that of the ticker: a ticker with the
    suffix [.NS] or [.BO] gets only peers with the suffix [.NS], any
    other ticker gets none with it. *)
Theorem find_sector_peers_market (ticker sector peer : string) :
  In peer (find_sector_peers ticker sector) ->
  endswith peer ".NS" = is_indian ticker.
Proof.
  intros H. apply peers_listed in H. revert peer H.
  unfold catalog_of. destruct (is_indian ticker).
  - destruct (dict_get_In indian_sectors sector []) as [-> | H]; [intros ? []|].
    assert (F : forallb (forallb (fun p => endswith p ".NS")) (map snd indian_sectors)
                = true) by (vm_compute; reflexivity).
    rewrite forallb_forall in F. specialize (F _ H).
    rewrite forallb_forall in F. exact F.
  - destruct (dict_get_In sector_mapping sector []) as [-> | H]; [intros ? []|].
    assert (F : forallb (forallb (fun p => negb (endswith p ".NS")))
                  (map snd sector_mapping) = true) by (vm_compute; reflexivity).
    rewrite forallb_forall in F. specialize (F _ H).
    rewrite forallb_forall in F. intros peer Hp. apply negb_true_iff. now apply F.
Qed.

(** X3.  A ticker has no peer exactly when the catalog of its market
    does not list the sector.  When it lists it, the ticker has at least
    four peers, and exactly eight on the default market. *)
Theorem find_sector_peers_count (ticker sector : string) :
  (find_sector_peers ticker sector = [] <->
   dict_get (catalog_of ticker) sector [] = []) /\
  (dict_get (catalog_of ticker) sector [] <> [] ->
   (4 <= List.length (find_sector_peers ticker sector))%nat /\
   (is_indian ticker = false -> List.length (find_sector_peers ticker sector) = 8%nat)).
Proof.
  split; [split|].
  - intros H.
    destruct (catalog_listed_length ticker sector) as [E | L5]; [exact E|].
    assert (Hne : dict_get (catalog_of ticker) sector [] <> [])
      by (intros E; rewrite E in L5; simpl in L5; lia).
    destruct (peers_length ticker sector Hne) as [H4 _].
    rewrite H in H4. simpl in H4. lia.
  - intros E. rewrite find_sector_peers_unfold, E. reflexivity.
  - apply peers_length.
Qed.

(** ** Relationship categories and candidates *)

Lemma industry_peers_length (l : list string) :
  (List.length (if (2 <? List.length l)%nat then slice 2 6 l else l) <= 4)%nat.
Proof.
  destruct (2 <? List.length l)%nat eqn:E.
  - unfold slice. rewrite length_skipn, length_firstn. lia.
  - apply Nat.ltb_ge in E. lia.
Qed.

Lemma industry_peers_In (l : list string) (x : string) :
  In x (if (2 <? List.length l)%nat then slice 2 6 l else l) -> In x (firstn 6 l).
Proof.
  destruct (2 <? List.length l)%nat eqn:E.
  - unfold slice. apply skipn_In.
  - apply Nat.ltb_ge in E. rewrite firstn_all2 by lia. tauto.
Qed.

(** X4.  The dict of [get_related_stocks] has the keys sector_peers,
    industry_peers and competitors in this order, with at most five, four
    and four tickers; the competitors are the first four sector peers;
    every ticker of every category is a peer of the primary ticker, and
    so is not the primary ticker, and no category lists a ticker twice.
    The industry given plays no part. *)
Theorem get_related_stocks_shape (ticker sector industry : string) :
  let relationships := get_related_stocks ticker sector industry in
  map fst relationships = categories /\
  (List.length (dict_get relationships "sector_peers" []) <= 5)%nat /\
  (List.length (dict_get relationships "industry_peers" []) <= 4)%nat /\
  (List.length (dict_get relationships "competitors" []) <= 4)%nat /\
  dict_get relationships "competitors" [] =
    firstn 4 (dict_get relationships "sector_peers" []) /\
  (forall category stock,
     In stock (dict_get relationships category []) ->
     In stock (find_sector_peers ticker sector) /\ stock <> ticker) /\
  (forall category, NoDup (dict_get relationships category [])) /\
  relationships = get_related_stocks ticker sector "".
Proof.
  cbv zeta. unfold get_related_stocks.
  pose proof (peers_not_self ticker sector) as Hself.
  pose proof (peers_NoDup ticker sector) as Hnd.
  set (peers := find_sector_peers ticker sector) in *.
  assert (Hcat : forall category,
            let l := dict_get
                       [("sector_peers", firstn 5 peers);
                        ("industry_peers",
                          if (2 <? List.length peers)%nat then slice 2 6 peers else peers);
                        ("competitors", firstn 4 peers)] category [] in
            (forall stock, In stock l -> In stock peers) /\ NoDup l).
  { intros category. cbn [dict_get].
    destruct (String.eqb "sector_peers" category).
    { split; [intros stock; apply firstn_In | now apply firstn_NoDup]. }
    destruct (String.eqb "industry_peers" category).
    { split.
      - intros stock H. apply industry_peers_In in H. now apply firstn_In in H.
      - destruct (2 <? List.length peers)%nat; [|exact Hnd].
        unfold slice.
        assert (H6 : NoDup (firstn 6 peers)) by now apply firstn_NoDup.
        rewrite <- (firstn_skipn 2 (firstn 6 peers)) in H6.
        now apply NoDup_app_remove_l in H6. }
    destruct (String.eqb "competitors" category).
    { split; [intros stock; apply firstn_In | now apply firstn_NoDup]. }
    split; [intros stock [] | constructor]. }
  split; [reflexivity|]. cbn [dict_get String.eqb Ascii.eqb Bool.eqb].
  split; [apply firstn_le_length|].
  split; [apply industry_peers_length|].
  split; [apply firstn_le_length|].
  split; [rewrite firstn_firstn; reflexivity|].
  split; [|split; [|reflexivity]].
  - intros category stock H. apply (proj1 (Hcat category)) in H.
    split; [exact H|]. intros ->. contradiction.
  - intros category. apply (proj2 (Hcat category)).
Qed.

Lemma all_related_tickers (ticker sector : string) :
  map fst (all_related_of (get_related_stocks ticker sector "")) =
  firstn 5 (find_sector_peers ticker sector) ++
  (if (2 <? List.length (find_sector_peers ticker sector))%nat
   then slice 2 6 (find_sector_peers ticker sector)
   else find_sector_peers ticker sector) ++
  firstn 4 (find_sector_peers ticker sector).
Proof.
  rewrite all_related_of_flat. unfold get_related_stocks. simpl.
  rewrite app_nil_r, !map_app, !map_map. simpl. now rewrite !map_id.
Qed.

Lemma all_related_categories (ticker sector : string) (pair : string * string) :
  In pair (all_related_of (get_related_stocks ticker sector "")) ->
  In (snd pair) categories.
Proof.
  rewrite all_related_of_flat. unfold get_related_stocks. simpl.
  rewrite app_nil_r, !in_app_iff, !in_map_iff.
  intros [[x [<- _]] | [[x [<- _]] | [x [<- _]]]]; simpl; tauto.
Qed.

Lemma all_related_length (ticker sector : string) :
  List.length (all_related_of (get_related_stocks ticker sector "")) =
  (List.length (firstn 5 (find_sector_peers ticker sector)) +
   (List.length (if (2 <? List.length (find_sector_peers ticker sector))%nat
                 then slice 2 6 (find_sector_peers ticker sector)
                 else find_sector_peers ticker sector) +
    List.length (firstn 4 (find_sector_peers ticker sector))))%nat.
Proof.
  rewrite <- (length_map fst), all_related_tickers, !length_app. reflexivity.
Qed.

Lemma all_related_length_le (ticker sector : string) :
  (List.length (all_related_of (get_related_stocks ticker sector "")) <= 13)%nat.
Proof.
  rewrite all_related_length.
  pose proof (firstn_le_length 5 (find_sector_peers ticker sector)).
  pose proof (industry_peers_length (find_sector_peers ticker sector)).
  pose proof (firstn_le_length 4 (find_sector_peers ticker sector)).
  lia.
Qed.

Lemma candidate_tickers (ticker sector stock : string) :
  In stock (map fst (all_related_of (get_related_stocks ticker sector ""))) <->
  In stock (firstn 6 (find_sector_peers ticker sector)).
Proof.
  rewrite all_related_tickers. set (peers := find_sector_peers ticker sector).
  rewrite !in_app_iff. split.
  - intros [H | [H | H]].
    + apply (firstn_In_le 5 6); [lia | exact H].
    + now apply industry_peers_In.
    + apply (firstn_In_le 4 6); [lia | exact H].
  - intros H. rewrite <- (firstn_skipn 2 (firstn 6 peers)) in H.
    apply in_app_or in H. destruct H as [H | H].
    + left. rewrite firstn_firstn in H. apply (firstn_In_le 2 5); [lia | exact H].
    + right. left. destruct (2 <? List.length peers)%nat eqn:E; [exact H|].
      now apply skipn_In, firstn_In in H.
Qed.

(** X5.  The candidates of an analysis are at most 13 pairs, each with
    one of the three categories, and their tickers are exactly the first
    six peers of the primary ticker: the seventh and eighth peers are
    never candidates.  On the default market with a listed sector the
    list has exactly 13 pairs. *)
Theorem candidates_are_first_six_peers (ticker sector : string) :
  let candidates := all_related_of (get_related_stocks ticker sector "") in
  (List.length candidates <= 13)%nat /\
  (forall stock,
     In stock (map fst candidates) <->
     In stock (firstn 6 (find_sector_peers ticker sector))) /\
  (forall pair, In pair candidates -> In (snd pair) categories) /\
  (is_indian ticker = false ->
   dict_get (catalog_of ticker) sector [] <> [] ->
   List.length candidates = 13%nat).
Proof.
  cbv zeta. split; [apply all_related_length_le|].
  split; [intros stock; apply candidate_tickers|].
  split; [apply all_related_categories|].
  intros Hm Hk. destruct (peers_length ticker sector Hk) as [_ H8].
  specialize (H8 Hm). rewrite all_related_length, !length_firstn.
  assert (E : (2 <? List.length (find_sector_peers ticker sector))%nat = true)
    by (apply Nat.ltb_lt; lia).
  rewrite E. unfold slice. rewrite length_skipn, length_firstn. lia.
Qed.

(** ** Rounding keeps the sign *)

Lemma round_half_even_pos (q : Q) : (0 < round_half_even q)%Z -> (0 < q)%Q.
Proof.
  unfold round_half_even, Qlt_bool.
  pose proof (Qfloor_le q) as Hle. pose proof (Qlt_floor q) as Hlt.
  rewrite inject_Z_plus in Hlt.
  set (f := Qfloor q) in *. intros H.
  assert (Hf : (0 <= f)%Z \/ (f <= -1)%Z) by lia.
  destruct Hf as [Hf | Hf].
  - assert (Hq : (0 <= inject_Z f)%Q) by (rewrite (Zle_Qle 0 f) in Hf; exact Hf).
    assert (Hf' : (1 <= f)%Z \/ f = 0%Z) by lia.
    destruct Hf' as [Hf' | ->].
    + rewrite (Zle_Qle 1 f) in Hf'. change (inject_Z 1) with 1%Q in Hf'. lra.
    + change (inject_Z 0) with 0%Q in *.
      destruct (Qle_bool_spec (1 # 2) (q - 0)); simpl in H; [lra | lia].
  - exfalso.
    destruct (Qle_bool (1 # 2) (q - inject_Z f)); simpl in H; [|lia].
    destruct (Qle_bool (q - inject_Z f) (1 # 2)); simpl in H; [|lia].
    destruct (Z.even f); lia.
Qed.

Lemma round_half_even_neg (q : Q) : (round_half_even q < 0)%Z -> (q < 0)%Q.
Proof.
  unfold round_half_even, Qlt_bool.
  pose proof (Qfloor_le q) as Hle. pose proof (Qlt_floor q) as Hlt.
  rewrite inject_Z_plus in Hlt.
  set (f := Qfloor q) in *. intros H.
  assert (Hf : (f <= -2)%Z \/ f = (-1)%Z \/ (0 <= f)%Z) by lia.
  destruct Hf as [Hf | [-> | Hf]].
  - rewrite (Zle_Qle f (-2)) in Hf. change (inject_Z (-2)) with (-2 # 1)%Q in Hf.
    change (inject_Z 1) with 1%Q in Hlt. lra.
  - change (inject_Z (-1)) with (-1 # 1)%Q in *.
    destruct (Qle_bool_spec (1 # 2) (q - (-1 # 1))); simpl in H; [|lra].
    destruct (Qle_bool_spec (q - (-1 # 1)) (1 # 2)); simpl in H; [|lia].
    simpl in H. lia.
  - exfalso.
    destruct (Qle_bool (1 # 2) (q - inject_Z f)); simpl in H; [|lia].
    destruct (Qle_bool (q - inject_Z f) (1 # 2)); simpl in H; [|lia].
    destruct (Z.even f); lia.
Qed.

Lemma inject_Z_div_pos (z : Z) : (0 < inject_Z z / 1000)%Q -> (0 < z)%Z.
Proof.
  intros H. rewrite (Zlt_Qlt 0 z). change (inject_Z 0) with 0%Q.
  assert (E : (inject_Z z == (inject_Z z / 1000) * 1000)%Q) by (field).
  rewrite E. nra.
Qed.

Lemma inject_Z_div_neg (z : Z) : (inject_Z z / 1000 < 0)%Q -> (z < 0)%Z.
Proof.
  intros H. rewrite (Zlt_Qlt z 0). change (inject_Z 0) with 0%Q.
  assert (E : (inject_Z z == (inject_Z z / 1000) * 1000)%Q) by (field).
  rewrite E. nra.
Qed.

Lemma round3_positive (c : float) :
  fgt (round3 c) (Fin 0) = true -> fgt c (Fin 0) = true.
Proof.
  destruct c as [q| |]; try (intros H; exact H).
  unfold fgt, flt, Qlt_bool, round3. intros H.
  destruct (Qle_bool_spec (Qred (inject_Z (round_half_even (q * 1000)) / 1000)) 0)
    as [Hr | Hr]; [discriminate|].
  rewrite Qred_correct in Hr.
  assert (Hq : (0 < q * 1000)%Q).
  { apply round_half_even_pos, inject_Z_div_pos. lra. }
  destruct (Qle_bool_spec q 0); [exfalso; lra | reflexivity].
Qed.

Lemma round3_negative (c : float) :
  flt (round3 c) (Fin 0) = true -> fgt c (Fin 0) = false.
Proof.
  destruct c as [q| [|] |]; try (intros H; reflexivity); try discriminate.
  unfold fgt, flt, Qlt_bool, round3. intros H.
  destruct (Qle_bool_spec 0 (Qred (inject_Z (round_half_even (q * 1000)) / 1000)))
    as [Hr | Hr]; [discriminate|].
  rewrite Qred_correct in Hr.
  assert (Hq : (q * 1000 < 0)%Q).
  { apply round_half_even_neg, inject_Z_div_neg. lra. }
  destruct (Qle_bool_spec q 0); [reflexivity | exfalso; lra].
Qed.

(** ** More on the impact analysis *)

Lemma combine_length (s1 s2 : Series) :
  (List.length (combine s1 s2) <= List.length s1)%nat.
Proof.
  induction s1 as [|[d a] s1 IH]; simpl; [lia|].
  destruct (series_at d s2) as [b|]; [|lia].
  destruct (is_nan a || is_nan b); simpl; lia.
Qed.

Lemma fge_not_flt (x y : float) : fge x y = true -> fgt y x = false.
Proof. intros H. float_cases. Qed.

Lemma fmax_sorted {A : Type} (key : A -> float) (x : A) (l : list A) :
  StronglySorted (desc key) (x :: l) -> fmax (map key (x :: l)) = key x.
Proof.
  intros H. apply StronglySorted_inv in H. destruct H as [_ H].
  simpl. unfold fmax_from. induction l as [|y l IH]; simpl; [reflexivity|].
  inversion H as [|? ? Hy Hl]; subst.
  rewrite (fge_not_flt _ _ Hy). now apply IH.
Qed.

Section AnalysisMore.

Variable yf_history : string -> string -> exn + Series.
Variable series_corr : Series -> Series -> exn + float.
Variable executor_submit : nat -> option exn.
Variable timed_out : nat -> bool.
Variable now_isoformat : string.

Local Abbreviation price_data := (get_stock_price_data yf_history).
Local Abbreviation correlate := (calculate_correlation yf_history series_corr).
Local Abbreviation entries := (task_entries yf_history series_corr timed_out).
Local Abbreviation body :=
  (analyze_stock_impact_body yf_history series_corr executor_submit timed_out
     now_isoformat).
Local Abbreviation analyze :=
  (analyze_stock_impact yf_history series_corr executor_submit timed_out
     now_isoformat).

Lemma analyze_related (primary_ticker sector : string) (r : Entry.t) :
  In r (Impact.related_stocks (analyze primary_ticker sector)) ->
  exists stock category,
    In (stock, category) (all_related_of (get_related_stocks primary_ticker sector "")) /\
    r = entry_of stock category (correlate primary_ticker stock "1y") /\
    fne (Corr.correlation (correlate primary_ticker stock "1y")) (Fin 0) = true.
Proof.
  unfold analyze_stock_impact.
  destruct (body primary_ticker sector) as [e|result] eqn:H; [intros []|].
  destruct (body_completed _ _ _ _ _ _ _ _ H) as [futures [Hs Hf]].
  cbv zeta in Hf. destruct Hf as [_ [Hr _]]. rewrite Hr.
  intros Hin. apply sort_desc_In in Hin.
  apply (collected_entry yf_history series_corr timed_out) in Hin.
  rewrite (submit_all_tasks _ _ _ _ Hs) in Hin. exact Hin.
Qed.

Lemma entries_length (primary_ticker : string) (futures : list Task) :
  (List.length (flat_map (entries primary_ticker) futures) <= List.length futures)%nat.
Proof.
  induction futures as [|[[i stock] category] rest IH]; simpl; [lia|].
  rewrite length_app. destruct (timed_out i); simpl; [lia|].
  destruct (fne _ _); simpl; lia.
Qed.

(** X6.  Every related stock of an analysis was made for a candidate: its
    ticker is one of the first six peers of the primary ticker, hence not
    the primary ticker, and its relationship type is one of the three
    categories.  An analysis never reports more than 13 related stocks. *)
Theorem related_stocks_come_from_candidates (primary_ticker sector : string) :
  (forall r, In r (Impact.related_stocks (analyze primary_ticker sector)) ->
     In (Entry.ticker r, Entry.relationship_type r)
        (all_related_of (get_related_stocks primary_ticker sector "")) /\
     In (Entry.ticker r) (firstn 6 (find_sector_peers primary_ticker sector)) /\
     Entry.ticker r <> primary_ticker /\
     In (Entry.relationship_type r) categories) /\
  (List.length (Impact.related_stocks (analyze primary_ticker sector)) <= 13)%nat /\
  (Summary.total_analyzed (Impact.summary (analyze primary_ticker sector)) <= 13)%nat.
Proof.
  split.
  - intros r Hin. apply analyze_related in Hin.
    destruct Hin as [stock [category [Hc [-> _]]]].
    cbn [entry_of Entry.ticker Entry.relationship_type].
    assert (Hs : In stock (firstn 6 (find_sector_peers primary_ticker sector))).
    { apply candidate_tickers. apply in_map_iff. now exists (stock, category). }
    split; [exact Hc|]. split; [exact Hs|]. split.
    + intros ->. apply firstn_In in Hs.
      now apply (peers_not_self primary_ticker sector).
    + apply (all_related_categories primary_ticker sector (stock, category) Hc).
  - unfold analyze_stock_impact.
    destruct (body primary_ticker sector) as [e|result] eqn:H; [simpl; lia|].
    destruct (body_completed _ _ _ _ _ _ _ _ H) as [futures [Hs Hf]].
    cbv zeta in Hf. destruct Hf as [_ [Hr [_ [_ [Hn _]]]]]. rewrite Hn, Hr.
    rewrite sort_desc_length.
    pose proof (entries_length primary_ticker futures) as Hl.
    pose proof (f_equal (@List.length _) (submit_all_tasks _ _ _ _ Hs)) as Hm.
    rewrite length_map in Hm.
    pose proof (all_related_length_le primary_ticker sector) as H13.
    lia.
Qed.

(** X7.  Every related stock of an analysis has the direction "Positive"
    or "Negative", never "Neutral"; the direction is "Positive" when its
    reported coefficient is above 0 and "Negative" when it is below 0;
    its impact score is the magnitude of its reported coefficient times
    100. *)
Theorem related_stock_direction_and_score (primary_ticker sector : string) (r : Entry.t) :
  In r (Impact.related_stocks (analyze primary_ticker sector)) ->
  (Entry.direction r = "Positive" \/ Entry.direction r = "Negative") /\
  (fgt (Entry.correlation r) (Fin 0) = true -> Entry.direction r = "Positive") /\
  (flt (Entry.correlation r) (Fin 0) = true -> Entry.direction r = "Negative") /\
  Entry.impact_score r = fmul (fabs (Entry.correlation r)) (Fin 100).
Proof.
  intros Hin. apply analyze_related in Hin.
  destruct Hin as [stock [category [_ [-> Hne]]]].
  destruct (entry_value yf_history series_corr primary_ticker stock category Hne)
    as [c [Hc [_ [Hd _]]]].
  split; [|split; [|split]].
  - rewrite Hd. unfold direction_of.
    destruct (fgt c (Fin 0)); [now left | now right].
  - rewrite Hd, Hc. unfold direction_of. intros H. now rewrite (round3_positive c H).
  - rewrite Hd, Hc. unfold direction_of. intros H. now rewrite (round3_negative c H).
  - reflexivity.
Qed.

Lemma submit_all_fails (i : nat) (all_related : list (string * string)) (e : exn) :
  submit_all executor_submit i all_related = inl e <->
  exists k, (k < List.length all_related)%nat /\
            executor_submit (i + k) = Some e /\
            forall j, (j < k)%nat -> executor_submit (i + j) = None.
Proof.
  revert i. induction all_related as [|[stock category] rest IH]; intros i; simpl.
  - split; [discriminate | intros [k [H _]]; lia].
  - destruct (executor_submit i) as [e'|] eqn:E.
    + split.
      * intros [= <-]. exists 0%nat. rewrite Nat.add_0_r.
        split; [lia|]. split; [exact E | intros j Hj; lia].
      * intros [k [_ [Hk Hj]]]. destruct k as [|k].
        -- rewrite Nat.add_0_r in Hk. congruence.
        -- specialize (Hj 0%nat). rewrite Nat.add_0_r in Hj.
           rewrite Hj in E by lia. discriminate.
    + destruct (submit_all executor_submit (S i) rest) as [e'|fs] eqn:Es.
      * split.
        -- intros [= <-]. apply IH in Es. destruct Es as [k [Hk [He Hj]]].
           exists (S k). split; [lia|]. split.
           ++ now rewrite Nat.add_succ_r.
           ++ intros j Hlt. destruct j as [|j]; [now rewrite Nat.add_0_r|].
              rewrite Nat.add_succ_r. apply Hj. lia.
        -- intros [k [Hk [He Hj]]]. f_equal.
           destruct k as [|k]; [rewrite Nat.add_0_r in He; congruence|].
           assert (Es' : submit_all executor_submit (S i) rest = inl e).
           { apply IH. exists k. split; [lia|]. split.
             - now rewrite Nat.add_succ_r in He.
             - intros j Hlt. specialize (Hj (S j)).
               rewrite Nat.add_succ_r in Hj. apply Hj. lia. }
           congruence.
      * split; [discriminate|].
        intros [k [Hk [He Hj]]].
        destruct k as [|k]; [rewrite Nat.add_0_r in He; congruence|].
        assert (Es' : submit_all executor_submit (S i) rest = inl e).
        { apply IH. exists k. split; [lia|]. split.
          - now rewrite Nat.add_succ_r in He.
          - intros j Hlt. specialize (Hj (S j)).
            rewrite Nat.add_succ_r in Hj. apply Hj. lia. }
        congruence.
Qed.

(** X8.  An analysis ends in the error result exactly when submitting one
    of its candidates raises, and the message it carries is that of the
    first submission that raised; what happens to candidates beyond the
    list, or inside the correlation of any candidate, never does this. *)
Theorem analysis_fails_iff_submit_raises (primary_ticker sector : string) (e : exn) :
  body primary_ticker sector = inl e <->
  exists k,
    (k < List.length (all_related_of (get_related_stocks primary_ticker sector "")))%nat /\
    executor_submit k = Some e /\
    forall j, (j < k)%nat -> executor_submit j = None.
Proof.
  rewrite <- (submit_all_fails 0).
  unfold analyze_stock_impact_body.
  destruct (submit_all executor_submit 0 _) as [e'|futures].
  - split; intros [= ->]; reflexivity.
  - split; [|discriminate].
    destruct (sort_desc _ _); discriminate.
Qed.

Lemma submit_all_indices (i : nat) (all_related : list (string * string))
    (futures : list Task) :
  submit_all executor_submit i all_related = inr futures ->
  Forall (fun task : Task => (fst (fst task) < i + List.length all_related)%nat) futures.
Proof.
  revert i futures.
  induction all_related as [|[stock category] rest IH]; intros i futures; simpl.
  - intros [= <-]. constructor.
  - destruct (executor_submit i); [discriminate|].
    destruct (submit_all executor_submit (S i) rest) as [e|fs] eqn:E; [discriminate|].
    intros [= <-]. constructor; [simpl; lia|].
    apply IH in E. eapply Forall_impl; [|exact E]. simpl. intros. lia.
Qed.

Lemma no_entries_unknown (primary_ticker sector : string) (result : Impact.t)
    (futures : list Task) :
  body primary_ticker sector = inr result ->
  submit_all executor_submit 0
    (all_related_of (get_related_stocks primary_ticker sector "")) = inr futures ->
  (forall task, In task futures -> entries primary_ticker task = []) ->
  Impact.related_stocks result = [] /\
  Impact.summary result =
    {| Summary.total_analyzed := 0;
       Summary.average_correlation := Fin 0;
       Summary.max_correlation := Fin 0;
       Summary.market_influence := "Unknown" |}.
Proof.
  intros H Hs Hnone.
  destruct (body_completed _ _ _ _ _ _ _ _ H) as [futures' [Hs' Hf]].
  rewrite Hs in Hs'. injection Hs' as <-.
  cbv zeta in Hf. destruct Hf as [_ [Hr [_ [_ [_ [Hnil _]]]]]].
  assert (E : flat_map (entries primary_ticker) futures = []).
  { clear - Hnone. induction futures as [|t fs IH]; simpl; [reflexivity|].
    rewrite (Hnone t) by now left. simpl. apply IH. intros. apply Hnone. now right. }
  rewrite E in *. simpl in *. split; [exact Hr | now apply Hnil].
Qed.

(** X9.  When the future of every candidate times out, a completed
    analysis reports no related stock and the market influence "Unknown",
    with zero count, average and maximum: timeouts are dropped in silence
    and never turn into the error result. *)
Theorem all_timeouts_give_unknown (primary_ticker sector : string) (result : Impact.t) :
  body primary_ticker sector = inr result ->
  (forall i,
     (i < List.length (all_related_of (get_related_stocks primary_ticker sector "")))%nat ->
     timed_out i = true) ->
  Impact.related_stocks result = [] /\
  Impact.summary result =
    {| Summary.total_analyzed := 0;
       Summary.average_correlation := Fin 0;
       Summary.max_correlation := Fin 0;
       Summary.market_influence := "Unknown" |} /\
  Impact.error result = None.
Proof.
  intros H Ht.
  destruct (body_completed _ _ _ _ _ _ _ _ H) as [futures [Hs Hf]].
  cbv zeta in Hf.
  destruct (no_entries_unknown _ _ _ _ H Hs) as [H1 H2].
  - intros [[i stock] category] Hin. unfold task_entries.
    pose proof (submit_all_indices _ _ _ Hs) as Hi.
    rewrite Forall_forall in Hi. specialize (Hi _ Hin). simpl in Hi.
    now rewrite (Ht i Hi).
  - split; [exact H1|]. split; [exact H2 | tauto].
Qed.

(** X10.  When the price history of the primary ticker cannot be had, or
    has fewer than 30 rows, a completed analysis reports no related stock
    and the market influence "Unknown": every candidate is downgraded to
    a sentinel and dropped. *)
Theorem unusable_primary_gives_unknown (primary_ticker sector : string)
    (result : Impact.t) :
  body primary_ticker sector = inr result ->
  (price_data primary_ticker "1y" = None \/
   exists data, price_data primary_ticker "1y" = Some data /\
                (List.length data < 30)%nat) ->
  Impact.related_stocks result = [] /\
  Impact.summary result =
    {| Summary.total_analyzed := 0;
       Summary.average_correlation := Fin 0;
       Summary.max_correlation := Fin 0;
       Summary.market_influence := "Unknown" |}.
Proof.
  intros H Hp.
  destruct (body_completed _ _ _ _ _ _ _ _ H) as [futures [Hs _]].
  apply (no_entries_unknown _ _ _ _ H Hs).
  intros [[i stock] category] _. unfold task_entries.
  destruct (timed_out i); [reflexivity|].
  assert (E : Corr.correlation (correlate primary_ticker stock "1y") = Fin 0).
  { unfold calculate_correlation. destruct Hp as [-> | [data [-> Hlen]]]; [reflexivity|].
    destruct (price_data stock "1y") as [data2|]; [|reflexivity].
    pose proof (combine_length data data2) as Hc.
    assert (Hlt : (List.length (combine data data2) <? 30)%nat = true)
      by (apply Nat.ltb_lt; lia).
    now rewrite Hlt. }
  cbv zeta. now rewrite E.
Qed.

Lemma body_summary (primary_ticker sector : string) (result : Impact.t) :
  body primary_ticker sector = inr result ->
  Impact.related_stocks result <> [] ->
  Impact.summary result =
    {| Summary.total_analyzed := List.length (Impact.related_stocks result);
       Summary.average_correlation :=
         round3 (fmean (map abs_correlation (Impact.related_stocks result)));
       Summary.max_correlation :=
         round3 (fmax (map abs_correlation (Impact.related_stocks result)));
       Summary.market_influence :=
         influence_of (fmean (map abs_correlation (Impact.related_stocks result))) |}.
Proof.
  unfold analyze_stock_impact_body.
  destruct (submit_all _ _ _) as [e|futures]; [discriminate|].
  destruct (sort_desc _ _) as [|r rs]; intros [= <-]; simpl; [congruence|].
  reflexivity.
Qed.

Lemma related_sorted (primary_ticker sector : string) (result : Impact.t) :
  (forall returns1 returns2 c, series_corr returns1 returns2 = inr c -> is_nan c = false) ->
  body primary_ticker sector = inr result ->
  StronglySorted (desc abs_correlation) (Impact.related_stocks result).
Proof.
  intros Hnan H.
  destruct (body_completed _ _ _ _ _ _ _ _ H) as [futures [Hs Hf]].
  cbv zeta in Hf. destruct Hf as [_ [Hr _]]. rewrite Hr.
  apply sort_desc_sorted. apply Forall_forall. intros r Hin.
  apply (collected_entry yf_history series_corr timed_out) in Hin.
  destruct Hin as [stock [category [_ [-> Hne]]]].
  destruct (entry_value yf_history series_corr primary_ticker stock category Hne)
    as [c [Hc [_ [_ [r1 [r2 Hcorr]]]]]].
  unfold abs_correlation. rewrite fabs_nan, Hc.
  specialize (Hnan _ _ _ Hcorr). destruct c; simpl in *; congruence.
Qed.

(** X11.  Provided the correlation routine never yields NaN, the maximum
    correlation in the summary of a completed analysis with related
    stocks is the magnitude of the coefficient of the first of them,
    rounded to three decimals. *)
Theorem max_correlation_is_first (primary_ticker sector : string) (result : Impact.t)
    (first : Entry.t) (rest : list Entry.t) :
  (forall returns1 returns2 c, series_corr returns1 returns2 = inr c -> is_nan c = false) ->
  body primary_ticker sector = inr result ->
  Impact.related_stocks result = first :: rest ->
  Summary.max_correlation (Impact.summary result) = round3 (abs_correlation first).
Proof.
  intros Hnan H Hr.
  pose proof (related_sorted _ _ _ Hnan H) as Hsorted.
  rewrite (body_summary _ _ _ H) by (rewrite Hr; discriminate).
  cbn [Summary.max_correlation]. rewrite Hr in *.
  now rewrite (fmax_sorted abs_correlation first rest Hsorted).
Qed.

End AnalysisMore.

(** ** The impact network *)

Lemma network_loop_maps (correlation_results : list Entry.t)
    (nodes : list Node.t) (edges : list Edge.t) :
  network_loop correlation_results nodes edges =
  (nodes ++ map node_of correlation_results, edges ++ map edge_of correlation_results).
Proof.
  revert nodes edges.
  induction correlation_results as [|result rest IH]; intros nodes edges; simpl.
  - now rewrite !app_nil_r.
  - rewrite IH, <- !app_assoc. reflexivity.
Qed.

Lemma network_nodes (correlation_results : list Entry.t) :
  Network.nodes (get_impact_network_data correlation_results) =
  map node_of correlation_results.
Proof.
  unfold get_impact_network_data. now rewrite network_loop_maps.
Qed.

Lemma network_edges (correlation_results : list Entry.t) :
  Network.edges (get_impact_network_data correlation_results) =
  map edge_of correlation_results.
Proof.
  unfold get_impact_network_data. now rewrite network_loop_maps.
Qed.

(** X12.  The network has one node and one edge for each result, in the
    order of the results: the node is named and labelled by the ticker of
    the result and carries its relationship type, the edge leads to that
    ticker from the placeholder "primary" and carries the coefficient,
    and a node and its edge have the same colour.  No result gives an
    empty network. *)
Theorem network_follows_results (correlation_results : list Entry.t) :
  let network := get_impact_network_data correlation_results in
  map Node.id (Network.nodes network) = map Entry.ticker correlation_results /\
  map Node.label (Network.nodes network) = map Entry.ticker correlation_results /\
  map Node.relationship (Network.nodes network) =
    map Entry.relationship_type correlation_results /\
  map Edge.to (Network.edges network) = map Entry.ticker correlation_results /\
  map Edge.correlation (Network.edges network) =
    map Entry.correlation correlation_results /\
  map Edge.color (Network.edges network) = map Node.color (Network.nodes network) /\
  Forall (fun edge => Edge.from edge = "primary") (Network.edges network) /\
  (correlation_results = [] -> network = {| Network.nodes := []; Network.edges := [] |}).
Proof.
  cbv zeta. rewrite network_nodes, network_edges, !map_map. cbn [node_of edge_of
    Node.id Node.label Node.relationship Node.color Edge.to Edge.correlation Edge.color].
  repeat (split; [reflexivity|]). split.
  - apply Forall_forall. intros edge H. apply in_map_iff in H.
    destruct H as [result [<- _]]. reflexivity.
  - intros ->. reflexivity.
Qed.

Lemma fge_scale (x y : float) (k b : Q) :
  (0 < k)%Q ->
  fge (fabs x) (fabs y) = true ->
  fge (fadd (fmul (fabs x) (Fin k)) (Fin b)) (fadd (fmul (fabs y) (Fin k)) (Fin b)) = true.
Proof.
  intros Hk H.
  destruct x as [a| |], y as [c| |]; simpl in *; try discriminate;
    unfold Qneg_bool, Qlt_bool in *;
    repeat match goal with
      | |- context [Qeq_bool k 0] => destruct (Qeq_bool_spec k 0); [exfalso; lra|]
      | |- context [Qle_bool 0 k] => destruct (Qle_bool_spec 0 k); [|exfalso; lra]
      end; simpl; try reflexivity; try discriminate.
  unfold fge, flt, feq, Qlt_bool in *.
  destruct (Qle_bool_spec (Qabs a) (Qabs c)); simpl in H.
  - destruct (Qeq_bool_spec (Qabs a) (Qabs c)); [|discriminate].
    destruct (Qeq_bool_spec (Qabs a * k + b) (Qabs c * k + b)) as [|Hn].
    + apply orb_true_r.
    + exfalso. apply Hn. rewrite q0. reflexivity.
  - destruct (Qle_bool_spec (Qabs a * k + b) (Qabs c * k + b)); [exfalso; nra|].
    reflexivity.
Qed.

Lemma fabs_bounds (x : float) (k b : Q) :
  (0 < k)%Q ->
  fge (Fin 1) (fabs x) = true ->
  fge (fadd (fmul (fabs x) (Fin k)) (Fin b)) (Fin b) = true /\
  fge (Fin (k + b)) (fadd (fmul (fabs x) (Fin k)) (Fin b)) = true.
Proof.
  intros Hk H. destruct x as [a| |]; simpl in *; try discriminate.
  pose proof (Qabs_nonneg a) as Ha.
  unfold fge, flt, feq, Qlt_bool in *.
  assert (H1 : (Qabs a <= 1)%Q).
  { destruct (Qle_bool_spec 1 (Qabs a)); simpl in H.
    - destruct (Qeq_bool_spec 1 (Qabs a)); [lra | discriminate].
    - lra. }
  split.
  - destruct (Qle_bool_spec (Qabs a * k + b) b); simpl; [|reflexivity].
    destruct (Qeq_bool_spec (Qabs a * k + b) b); [reflexivity | exfalso; nra].
  - destruct (Qle_bool_spec (k + b) (Qabs a * k + b)); simpl; [|reflexivity].
    destruct (Qeq_bool_spec (k + b) (Qabs a * k + b)); [reflexivity | exfalso; nra].
Qed.

(** X13.  The colour of a node is red ("#e74c3c") exactly when the
    magnitude of the coefficient is at least 0.6, orange ("#f39c12")
    exactly when it is at least 0.4 and not at least 0.6, and blue
    ("#3498db") exactly when it is not at least 0.4.  For a coefficient of
    magnitude at most 1 the size of the node lies between 10 and 60 and
    the width of the edge between 0 and 5. *)
Theorem network_colours_and_sizes (result : Entry.t) :
  let c := fabs (Entry.correlation result) in
  (Node.color (node_of result) = "#e74c3c" <-> fge c (Fin (6 # 10)) = true) /\
  (Node.color (node_of result) = "#f39c12" <->
     fge c (Fin (4 # 10)) = true /\ fge c (Fin (6 # 10)) = false) /\
  (Node.color (node_of result) = "#3498db" <-> fge c (Fin (4 # 10)) = false) /\
  (fge (Fin 1) c = true ->
     fge (Node.size (node_of result)) (Fin 10) = true /\
     fge (Fin 60) (Node.size (node_of result)) = true /\
     fge (Edge.width (edge_of result)) (Fin 0) = true /\
     fge (Fin 5) (Edge.width (edge_of result)) = true) /\
  In (node_of result) (Network.nodes (get_impact_network_data [result])).
Proof.
  cbv zeta. cbn [node_of edge_of Node.color Node.size Edge.width].
  unfold network_color.
  set (c := fabs (Entry.correlation result)).
  pose proof (fge_06_04 c) as M.
  split; [|split; [|split; [|split]]].
  - destruct (fge c (Fin (6 # 10))); [tauto|].
    destruct (fge c (Fin (4 # 10))); split; discriminate.
  - destruct (fge c (Fin (6 # 10))).
    + rewrite (M eq_refl). split; [discriminate | intros [_ H]; discriminate].
    + destruct (fge c (Fin (4 # 10))); [tauto|].
      split; [discriminate | intros [H _]; discriminate].
  - destruct (fge c (Fin (6 # 10))).
    + rewrite (M eq_refl). split; discriminate.
    + destruct (fge c (Fin (4 # 10))); [split; discriminate | tauto].
  - intros H1. subst c.
    destruct (fabs_bounds (Entry.correlation result) 50 10 ltac:(lra) H1) as [S1 S2].
    destruct (fabs_bounds (Entry.correlation result) 5 0 ltac:(lra) H1) as [W1 W2].
    split; [exact S1|]. split; [exact S2|].
    clear S1 S2. destruct (Entry.correlation result) as [a| |]; try discriminate.
    simpl in *. unfold fge, flt, feq, Qlt_bool in *. simpl in *.
    split.
    + destruct (Qle_bool_spec (Qabs a * 5) 0); simpl; [|reflexivity].
      destruct (Qle_bool_spec (Qabs a * 5 + 0) 0); simpl in W1;
        [|exfalso; lra].
      destruct (Qeq_bool_spec (Qabs a * 5) 0); [reflexivity|].
      destruct (Qeq_bool_spec (Qabs a * 5 + 0) 0); [exfalso; lra | discriminate].
    + destruct (Qle_bool_spec 5 (Qabs a * 5)); simpl; [|reflexivity].
      destruct (Qle_bool_spec (5 + 0) (Qabs a * 5 + 0)); simpl in W2;
        [|exfalso; lra].
      destruct (Qeq_bool_spec 5 (Qabs a * 5)); [reflexivity|].
      destruct (Qeq_bool_spec (5 + 0) (Qabs a * 5 + 0)); [exfalso; lra | discriminate].
  - rewrite network_nodes. now left.
Qed.

Lemma StronglySorted_map {A B : Type} (R : A -> A -> Prop) (S : B -> B -> Prop)
    (f : A -> B) (l : list A) :
  (forall a b, R a b -> S (f a) (f b)) ->
  StronglySorted R l -> StronglySorted S (map f l).
Proof.
  intros HRS H. induction H as [|a l Hl IH Ha]; simpl; constructor.
  - exact IH.
  - apply Forall_forall. intros b Hb. apply in_map_iff in Hb.
    destruct Hb as [x [<- Hx]]. apply HRS.
    rewrite Forall_forall in Ha. now apply Ha.
Qed.

Section AnalysisNetwork.

Variable yf_history : string -> string -> exn + Series.
Variable series_corr : Series -> Series -> exn + float.
Variable executor_submit : nat -> option exn.
Variable timed_out : nat -> bool.
Variable now_isoformat : string.

Local Abbreviation body :=
  (analyze_stock_impact_body yf_history series_corr executor_submit timed_out
     now_isoformat).

(** X14.  Provided the correlation routine never yields NaN, the network
    of the related stocks of a completed analysis lists its nodes by
    size, largest first; it has at most 13 nodes, and none of them is
    named by the primary ticker. *)
Theorem analysis_network_by_size (primary_ticker sector : string) (result : Impact.t) :
  (forall returns1 returns2 c, series_corr returns1 returns2 = inr c -> is_nan c = false) ->
  body primary_ticker sector = inr result ->
  let network := get_impact_network_data (Impact.related_stocks result) in
  StronglySorted size_ge (Network.nodes network) /\
  (List.length (Network.nodes network) <= 13)%nat /\
  List.length (Network.edges network) = List.length (Network.nodes network) /\
  (forall node, In node (Network.nodes network) -> Node.id node <> primary_ticker).
Proof.
  intros Hnan H network. subst network.
  rewrite network_nodes, network_edges, !length_map.
  split; [|split; [|split]].
  - apply (StronglySorted_map (desc abs_correlation)).
    + intros a b Hab. unfold size_ge, node_of. cbn [Node.size].
      apply fge_scale; [lra | exact Hab].
    + exact (related_sorted yf_history series_corr executor_submit timed_out
               now_isoformat primary_ticker sector result Hnan H).
  - destruct (body_completed _ _ _ _ _ _ _ _ H) as [futures [Hs Hf]].
    cbv zeta in Hf. destruct Hf as [_ [Hr _]]. rewrite Hr, sort_desc_length.
    pose proof (entries_length yf_history series_corr timed_out primary_ticker futures)
      as Hl.
    pose proof (f_equal (@List.length _) (submit_all_tasks _ _ _ _ Hs)) as Hm.
    rewrite length_map in Hm.
    pose proof (all_related_length_le primary_ticker sector) as H13. lia.
  - reflexivity.
  - intros node Hin. apply in_map_iff in Hin. destruct Hin as [r [<- Hr]].
    cbn [node_of Node.id].
    rewrite <- (analyze_completed _ _ _ _ _ _ _ _ H) in Hr.
    apply analyze_related in Hr.
    destruct Hr as [stock [category [Hc [-> _]]]]. cbn [entry_of Entry.ticker].
    intros ->.
    assert (Hs : In primary_ticker
                   (firstn 6 (find_sector_peers primary_ticker sector))).
    { apply candidate_tickers. apply in_map_iff. now exists (primary_ticker, category). }
    apply firstn_In in Hs. now apply (peers_not_self primary_ticker sector).
Qed.

End AnalysisNetwork.

(** ** Display of a correlation *)

(** X15.  [format_correlation_strength] names the strength of a
    coefficient as [calculate_correlation] does; its direction agrees with
    that of [calculate_correlation] exactly when the coefficient is above
    or below 0, and is "Neutral" otherwise (where [calculate_correlation]
    says "Negative"); two coefficients are displayed in the same colour
    exactly when they have the same strength. *)
Theorem display_agrees_with_engine (c c' : float) :
  Display.strength (format_correlation_strength c) = strength_of c /\
  (Display.direction (format_correlation_strength c) = direction_of c <->
     fgt c (Fin 0) = true \/ flt c (Fin 0) = true) /\
  (Display.direction (format_correlation_strength c) = "Neutral" <->
     fgt c (Fin 0) = false /\ flt c (Fin 0) = false) /\
  (Display.color (format_correlation_strength c) =
   Display.color (format_correlation_strength c') <->
     strength_of c = strength_of c').
Proof.
  unfold format_correlation_strength, strength_of, direction_of. cbv zeta.
  split; [|split; [|split]].
  - repeat match goal with
      | |- context [if ?b then _ else _] => destruct b
      end; reflexivity.
  - destruct (fge (fabs c) (Fin (8 # 10))), (fge (fabs c) (Fin (6 # 10))),
      (fge (fabs c) (Fin (4 # 10))), (fge (fabs c) (Fin (2 # 10)));
      cbn [Display.direction];
      destruct (fgt c (Fin 0)), (flt c (Fin 0));
      split; intros H; try reflexivity; try discriminate; try tauto;
      destruct H; discriminate.
  - destruct (fge (fabs c) (Fin (8 # 10))), (fge (fabs c) (Fin (6 # 10))),
      (fge (fabs c) (Fin (4 # 10))), (fge (fabs c) (Fin (2 # 10)));
      cbn [Display.direction];
      destruct (fgt c (Fin 0)), (flt c (Fin 0));
      split; intros H; try reflexivity; try discriminate; try tauto;
      destruct H; discriminate.
  - destruct (fge (fabs c) (Fin (8 # 10))), (fge (fabs c) (Fin (6 # 10))),
      (fge (fabs c) (Fin (4 # 10))), (fge (fabs c) (Fin (2 # 10))),
      (fge (fabs c') (Fin (8 # 10))), (fge (fabs c') (Fin (6 # 10))),
      (fge (fabs c') (Fin (4 # 10))), (fge (fabs c') (Fin (2 # 10)));
      cbn [Display.color]; split; intros H; try reflexivity; discriminate.
Qed.

(** X16.  On one coefficient the colours of the network and the strength
    ladder line up: a node is red exactly for the strengths "Very Strong"
    and "Strong", orange exactly for "Moderate", and blue exactly for
    "Weak" and "Very Weak". *)
Theorem network_colour_by_strength (c : float) :
  (network_color c = "#e74c3c" <->
     strength_of c = "Very Strong" \/ strength_of c = "Strong") /\
  (network_color c = "#f39c12" <-> strength_of c = "Moderate") /\
  (network_color c = "#3498db" <->
     strength_of c = "Weak" \/ strength_of c = "Very Weak").
Proof.
  unfold network_color, strength_of. cbv zeta.
  assert (M86 : fge (fabs c) (Fin (8 # 10)) = true -> fge (fabs c) (Fin (6 # 10)) = true).
  { intros H. apply (fge_trans _ _ _ H). reflexivity. }
  pose proof (fge_06_04 (fabs c)) as M64.
  destruct (fge (fabs c) (Fin (8 # 10))).
  - rewrite (M86 eq_refl). repeat split; intros H; try discriminate; try tauto;
      destruct H; discriminate.
  - destruct (fge (fabs c) (Fin (6 # 10))).
    + repeat split; intros H; try discriminate; try tauto; destruct H; discriminate.
    + destruct (fge (fabs c) (Fin (4 # 10))).
      * repeat split; intros H; try discriminate; try tauto; destruct H; discriminate.
      * destruct (fge (fabs c) (Fin (2 # 10)));
          repeat split; intros H; try discriminate; try tauto; destruct H; discriminate.
Qed.

(** ** Sector inference *)

(** X17.  Whatever the industry, the inferred sector is "Unknown" or a
    sector the default catalog lists, never "Consumer Defensive"; so a
    ticker of the default market with an inferred sector has exactly
    eight peers, while a ticker of the Indian market has none when the
    inferred sector is Real Estate, Utilities or Basic Materials. *)
Theorem inferred_sector_is_listed (lower : string -> string) (industry ticker : string) :
  let sector := infer_sector_from_industry lower industry in
  (sector = "Unknown" \/ In sector (map fst sector_mapping)) /\
  sector <> "Consumer Defensive" /\
  (sector <> "Unknown" -> is_indian ticker = false ->
     List.length (find_sector_peers ticker sector) = 8%nat) /\
  (In sector default_only_sectors -> is_indian ticker = true ->
     find_sector_peers ticker sector = []).
Proof.
  cbv zeta.
  assert (Hcases : In (infer_sector_from_industry lower industry)
                     ["Technology"; "Financial Services"; "Healthcare"; "Energy";
                      "Consumer Cyclical"; "Industrials"; "Real Estate"; "Utilities";
                      "Basic Materials"; "Unknown"]).
  { unfold infer_sector_from_industry. cbv zeta.
    repeat match goal with
      | |- context [if ?b then _ else _] => destruct b
      end; simpl; tauto. }
  set (sector := infer_sector_from_industry lower industry) in *.
  split; [|split; [|split]].
  - simpl in Hcases. simpl. intuition.
  - simpl in Hcases. intros E. rewrite E in Hcases. intuition discriminate.
  - intros Hu Hm.
    assert (Hk : dict_get (catalog_of ticker) sector [] <> []).
    { unfold catalog_of. rewrite Hm. simpl in Hcases.
      repeat (destruct Hcases as [<- | Hcases];
              [first [simpl; discriminate | exfalso; apply Hu; reflexivity]|]).
      destruct Hcases. }
    exact (proj2 (peers_length ticker sector Hk) Hm).
  - intros Hd Hm. rewrite find_sector_peers_unfold. unfold catalog_of. rewrite Hm.
    simpl in Hd. repeat (destruct Hd as [<- | Hd]; [reflexivity|]). destruct Hd.
Qed.

(** ** Strings *)

Lemma string_length_append (s1 s2 : string) :
  String.length (s1 ++ s2)%string = (String.length s1 + String.length s2)%nat.
Proof. induction s1 as [|c s1 IH]; simpl; [reflexivity | now rewrite IH]. Qed.

Lemma string_length_prefix (n : nat) (s : string) :
  (n <= String.length s)%nat -> String.length (substring 0 n s) = n.
Proof.
  revert s. induction n as [|n IH]; intros s H.
  - destruct s; reflexivity.
  - destruct s as [|c s]; simpl in *; [lia|]. rewrite IH; [reflexivity | lia].
Qed.

Lemma string_prefix_append (n : nat) (s1 s2 : string) :
  (n <= String.length s1)%nat -> substring 0 n (s1 ++ s2)%string = substring 0 n s1.
Proof.
  revert s1. induction n as [|n IH]; intros s1 H.
  - destruct s1; simpl; destruct s2; reflexivity.
  - destruct s1 as [|c s1]; simpl in *; [lia|]. rewrite IH; [reflexivity | lia].
Qed.

Lemma string_prefix_prefix (n : nat) (s : string) :
  substring 0 n (substring 0 n s) = substring 0 n s.
Proof.
  revert s. induction n as [|n IH]; intros s.
  - destruct s; reflexivity.
  - destruct s as [|c s]; simpl; [reflexivity | now rewrite IH].
Qed.

Lemma shorten_spec (business_summary : string) :
  (String.length (shorten business_summary) <= 503)%nat /\
  ((String.length business_summary <= 500)%nat ->
     shorten business_summary = business_summary) /\
  ((500 < String.length business_summary)%nat ->
     String.length (shorten business_summary) = 503%nat /\
     substring 0 500 (shorten business_summary) = substring 0 500 business_summary /\
     substring 500 3 (shorten business_summary) = "...").
Proof.
  unfold shorten. destruct (500 <? String.length business_summary)%nat eqn:E.
  - apply Nat.ltb_lt in E.
    assert (L : String.length (substring 0 500 business_summary) = 500%nat)
      by (apply string_length_prefix; lia).
    split; [|split].
    + rewrite string_length_append, L. simpl. lia.
    + intros H. lia.
    + intros _. split; [rewrite string_length_append, L; reflexivity|]. split.
      * rewrite string_prefix_append by lia. apply string_prefix_prefix.
      * rewrite <- L at 1. clear.
        induction (substring 0 500 business_summary) as [|c s IH];
          [reflexivity | exact IH].
  - apply Nat.ltb_ge in E. split; [lia|]. split; [reflexivity | lia].
Qed.

Lemma nonempty_false (s : string) : nonempty s = false <-> s = "".
Proof. destruct s; simpl; split; congruence. Qed.

Lemma summary_eta (summary : Summary.t) :
  {| Summary.total_analyzed := Summary.total_analyzed summary;
     Summary.average_correlation := Summary.average_correlation summary;
     Summary.max_correlation := Summary.max_correlation summary;
     Summary.market_influence := Summary.market_influence summary |} = summary.
Proof. destruct summary; reflexivity. Qed.

(** ** Ticker lookup and stock information *)

Section StockInformationFacts.

Variable lower : string -> string.
Variable strip : string -> string.
Variable requests_get : string -> exn + Response.t.
Variable stock_info : string -> exn + option Info.t.
Variable load_models : option exn.
Variable yf_history : string -> string -> exn + Series.
Variable series_corr : Series -> Series -> exn + float.
Variable executor_submit : nat -> option exn.
Variable timed_out : nat -> bool.
Variable now_isoformat : string.

Local Abbreviation ticker_symbol_of := (get_ticker_symbol lower strip requests_get).
Local Abbreviation fallback := (get_ticker_from_mapping lower strip).
Local Abbreviation info_of :=
  (get_comprehensive_stock_info lower strip requests_get stock_info yf_history
     series_corr executor_submit timed_out now_isoformat).
Local Abbreviation analyze :=
  (analyze_stock_impact yf_history series_corr executor_submit timed_out
     now_isoformat).
Local Abbreviation api :=
  (get_correlation_analysis lower strip requests_get stock_info load_models yf_history
     series_corr executor_submit timed_out now_isoformat).

Lemma best_match_symbol (company_name : string) (quotes : list Quote.t) (symbol : string) :
  best_match lower company_name quotes = Some symbol ->
  symbol <> "" /\ exists quote, In quote quotes /\ Quote.symbol quote = symbol.
Proof.
  induction quotes as [|quote rest IH]; simpl; [discriminate|].
  destruct (nonempty (Quote.symbol quote)) eqn:En; simpl.
  - destruct (nonempty _ && _).
    + intros [= <-]. split.
      * intros E. rewrite E in En. discriminate.
      * exists quote. split; [now left | reflexivity].
    + intros H. destruct (IH H) as [H1 [q [Hq Hs]]].
      split; [exact H1|]. exists q. split; [now right | exact Hs].
  - intros H. destruct (IH H) as [H1 [q [Hq Hs]]].
    split; [exact H1|]. exists q. split; [now right | exact Hs].
Qed.

(** X18.  The ticker [get_ticker_symbol] returns is the fallback from
    the table, or else the symbol, not empty, of one of the quotes of a
    search answered with status 200.  It is the fallback whenever the
    request raises, the status is not 200, decoding the answer raises, or
    there is no quote. *)
Theorem get_ticker_symbol_sources (company_name : string) :
  let url := ("https://query2.finance.yahoo.com/v1/finance/search?q=" ++
              replace_spaces (strip company_name) ++
              "&quotesCount=5&enableFuzzyQuery=false")%string in
  (ticker_symbol_of company_name = fallback company_name \/
   exists response quotes quote,
     requests_get url = inr response /\
     Response.status_code response = 200%Z /\
     Response.quotes response = inr quotes /\
     In quote quotes /\
     Quote.symbol quote = ticker_symbol_of company_name /\
     ticker_symbol_of company_name <> "") /\
  (((exists e, requests_get url = inl e) \/
    (exists response,
       requests_get url = inr response /\
       (Response.status_code response <> 200%Z \/
        (exists e, Response.quotes response = inl e) \/
        Response.quotes response = inr []))) ->
   ticker_symbol_of company_name = fallback company_name).
Proof.
  cbv zeta. unfold get_ticker_symbol, search_ticker. cbv zeta.
  destruct (requests_get _) as [e|response] eqn:Er.
  - split; [now left|]. intros _. reflexivity.
  - destruct (Z.eqb_spec (Response.status_code response) 200) as [E200|N200].
    + destruct (Response.quotes response) as [e|quotes] eqn:Eq.
      * split; [now left|]. intros _. reflexivity.
      * destruct (best_match lower company_name quotes) as [symbol|] eqn:Eb.
        -- destruct (best_match_symbol _ _ _ Eb) as [Hne [quote [Hin Hs]]].
           split.
           ++ right. exists response, quotes, quote. repeat split; assumption.
           ++ intros [[e He] | [r [Hr H]]]; [discriminate|].
              injection Hr as <-.
              destruct H as [H | [[e H] | H]]; [contradiction | congruence |].
              rewrite Eq in H. injection H as ->. discriminate.
        -- destruct quotes as [|first rest].
           ++ split; [now left|]. intros _. reflexivity.
           ++ destruct (nonempty (Quote.symbol first)) eqn:En.
              ** split.
                 --- right. exists response, (first :: rest), first.
                     repeat split; try assumption; try reflexivity; [now left|].
                     intros E. rewrite E in En. discriminate.
                 --- intros [[e He] | [r [Hr H]]]; [discriminate|].
                     injection Hr as <-.
                     destruct H as [H | [[e H] | H]];
                       [contradiction | congruence | congruence].
              ** split; [now left|]. intros _. reflexivity.
    + split; [now left|]. intros _. reflexivity.
Qed.

Lemma info_cases (company_name : string) :
  (exists message, info_of company_name = no_info (StockInfo.ticker (info_of company_name))
                                            message) \/
  (StockInfo.error (info_of company_name) = None /\
   StockInfo.ticker (info_of company_name) = ticker_symbol_of company_name /\
   exists info,
     stock_info (ticker_symbol_of company_name) = inr (Some info) /\
     StockInfo.business_summary (info_of company_name) =
       shorten (get_or (Info.longBusinessSummary info) "") /\
     StockInfo.industry (info_of company_name) = get_or (Info.industry info) "Unknown" /\
     (StockInfo.sector (info_of company_name) = "Unknown" ->
        StockInfo.correlation_analysis (info_of company_name) = None /\
        StockInfo.related_stocks (info_of company_name) = []) /\
     (StockInfo.sector (info_of company_name) <> "Unknown" ->
        StockInfo.correlation_analysis (info_of company_name) =
          Some (Impact.summary (analyze (ticker_symbol_of company_name)
                                  (StockInfo.sector (info_of company_name)))) /\
        StockInfo.related_stocks (info_of company_name) =
          firstn 8 (Impact.related_stocks
                      (analyze (ticker_symbol_of company_name)
                         (StockInfo.sector (info_of company_name)))))).
Proof.
  unfold get_comprehensive_stock_info.
  destruct (negb (nonempty company_name) || negb (nonempty (strip company_name)));
    [left; eexists; reflexivity|].
  cbv zeta.
  destruct (negb (nonempty (ticker_symbol_of company_name)));
    [left; eexists; reflexivity|].
  destruct (stock_info (ticker_symbol_of company_name)) as [e|[info|]] eqn:Ei;
    [left; eexists; reflexivity | | left; eexists; reflexivity].
  right.
  set (sector := if String.eqb (get_or (Info.sector info) "Unknown") "Unknown" &&
                    negb (String.eqb (get_or (Info.industry info) "Unknown") "Unknown")
                 then infer_sector_from_industry lower
                        (get_or (Info.industry info) "Unknown")
                 else get_or (Info.sector info) "Unknown").
  destruct (String.eqb_spec sector "Unknown") as [E|N]; cbn [negb].
  - cbn [StockInfo.error StockInfo.ticker StockInfo.business_summary StockInfo.industry
         StockInfo.sector StockInfo.correlation_analysis StockInfo.related_stocks].
    split; [reflexivity|]. split; [reflexivity|]. exists info.
    repeat split; try reflexivity; contradiction.
  - unfold correlation_part.
    cbn [StockInfo.error StockInfo.ticker StockInfo.business_summary StockInfo.industry
         StockInfo.sector StockInfo.correlation_analysis StockInfo.related_stocks].
    split; [reflexivity|]. split; [reflexivity|]. exists info.
    split; [reflexivity|]. split; [reflexivity|]. split; [reflexivity|].
    split; [intros; contradiction|]. intros _.
    rewrite summary_eta. split; reflexivity.
Qed.

Lemma info_blank (company_name : string) :
  company_name = "" \/ strip company_name = "" ->
  info_of company_name = no_info "" "No company name provided".
Proof.
  intros H. unfold get_comprehensive_stock_info.
  assert (E : negb (nonempty company_name) || negb (nonempty (strip company_name)) = true).
  { destruct H as [-> | ->]; [reflexivity|]. simpl. apply orb_true_r. }
  now rewrite E.
Qed.

(** X19.  Whenever [get_comprehensive_stock_info] reports an error, the
    result is bare: sector, industry and country "Unknown", market
    capitalisation and employee count 0, empty website and summary, no
    correlation analysis, no related stocks.  A company name that is
    empty, or empty once stripped, gives such a result with an empty
    ticker and the message "No company name provided". *)
Theorem stock_info_errors_are_bare (company_name : string) :
  (forall message,
     StockInfo.error (info_of company_name) = Some message ->
     info_of company_name =
       {| StockInfo.ticker := StockInfo.ticker (info_of company_name);
          StockInfo.sector := "Unknown";
          StockInfo.industry := "Unknown";
          StockInfo.market_cap := 0;
          StockInfo.country := "Unknown";
          StockInfo.website := "";
          StockInfo.business_summary := "";
          StockInfo.employee_count := 0;
          StockInfo.correlation_analysis := None;
          StockInfo.related_stocks := [];
          StockInfo.error := Some message |}) /\
  (company_name = "" \/ strip company_name = "" ->
   StockInfo.error (info_of company_name) = Some "No company name provided" /\
   StockInfo.ticker (info_of company_name) = "").
Proof.
  split.
  - intros message Hm.
    destruct (info_cases company_name) as [[m H] | [H _]]; [|congruence].
    rewrite H in Hm. cbn [no_info StockInfo.error] in Hm. injection Hm as <-.
    exact H.
  - intros H. rewrite (info_blank _ H). split; reflexivity.
Qed.

(** X20.  [get_comprehensive_stock_info] carries a correlation analysis
    exactly when the sector it reports is not "Unknown".  Then the
    analysis is the summary of [analyze_stock_impact] for the reported
    ticker and sector, and the related stocks are the first eight of its
    ranking; otherwise there are no related stocks. *)
Theorem stock_info_correlation (company_name : string) :
  let info :=
    get_comprehensive_stock_info lower strip requests_get stock_info yf_history
      series_corr executor_submit timed_out now_isoformat company_name in
  let analysis :=
    analyze_stock_impact yf_history series_corr executor_submit timed_out now_isoformat
      (StockInfo.ticker info) (StockInfo.sector info) in
  (StockInfo.correlation_analysis info = None <-> StockInfo.sector info = "Unknown") /\
  (StockInfo.sector info = "Unknown" -> StockInfo.related_stocks info = []) /\
  (StockInfo.sector info <> "Unknown" ->
     StockInfo.correlation_analysis info = Some (Impact.summary analysis) /\
     StockInfo.related_stocks info = firstn 8 (Impact.related_stocks analysis)) /\
  (List.length (StockInfo.related_stocks info) <= 8)%nat.
Proof.
  cbv zeta.
  destruct (info_cases company_name) as [[m H] | [_ [Ht [info [_ [_ [_ [Hu Hk]]]]]]]].
  - rewrite H. cbn [no_info StockInfo.correlation_analysis StockInfo.sector
      StockInfo.related_stocks StockInfo.ticker].
    repeat split; try reflexivity; try (intros; congruence). simpl. lia.
  - rewrite Ht.
    destruct (String.eqb_spec (StockInfo.sector (info_of company_name)) "Unknown")
      as [E|N].
    + destruct (Hu E) as [H1 H2]. rewrite H1, H2.
      repeat split; try reflexivity; try (intros; congruence). simpl. lia.
    + destruct (Hk N) as [H1 H2]. rewrite H1, H2.
      split; [split; [discriminate | intros; contradiction]|].
      split; [intros; contradiction|]. split; [intros; split; reflexivity|].
      apply firstn_le_length.
Qed.

(** X21.  The business summary [get_comprehensive_stock_info] reports
    never exceeds 503 characters: a summary of at most 500 characters is
    reported as it is, a longer one as its first 500 characters followed
    by three dots. *)
Theorem stock_info_summary_bounded (company_name : string) (info : Info.t) :
  (String.length (StockInfo.business_summary (info_of company_name)) <= 503)%nat /\
  (StockInfo.error (info_of company_name) = None ->
   stock_info (StockInfo.ticker (info_of company_name)) = inr (Some info) ->
   let full := get_or (Info.longBusinessSummary info) "" in
   ((String.length full <= 500)%nat ->
      StockInfo.business_summary (info_of company_name) = full) /\
   ((500 < String.length full)%nat ->
      String.length (StockInfo.business_summary (info_of company_name)) = 503%nat /\
      substring 0 500 (StockInfo.business_summary (info_of company_name)) =
        substring 0 500 full /\
      substring 500 3 (StockInfo.business_summary (info_of company_name)) = "...")).
Proof.
  destruct (info_cases company_name) as [[m H] | [He [Ht [info' [Hi [Hb _]]]]]].
  - split.
    + rewrite H. simpl. lia.
    + intros Hn. rewrite H in Hn. discriminate.
  - split.
    + rewrite Hb. apply shorten_spec.
    + intros _ Hi'. rewrite Ht, Hi in Hi'. injection Hi' as <-.
      cbv zeta. rewrite Hb. apply shorten_spec.
Qed.

(** X22.  [get_correlation_analysis] answers with success exactly when
    loading the models does not raise and the stock information has a
    sector other than "Unknown"; a successful answer holds the ticker
    asked for, the correlation analysis and at most eight related stocks,
    and no error; an unsuccessful one holds an error and no data. *)
Theorem api_success (ticker : string) :
  let answer :=
    get_correlation_analysis lower strip requests_get stock_info load_models yf_history
      series_corr executor_submit timed_out now_isoformat ticker in
  let info :=
    get_comprehensive_stock_info lower strip requests_get stock_info yf_history
      series_corr executor_submit timed_out now_isoformat ticker in
  (Api.success answer = true <->
     load_models = None /\ StockInfo.sector info <> "Unknown") /\
  (Api.success answer = true ->
     exists analysis,
       StockInfo.correlation_analysis info = Some analysis /\
       Api.data answer = Some (ticker, analysis, StockInfo.related_stocks info) /\
       (List.length (StockInfo.related_stocks info) <= 8)%nat /\
       Api.error answer = None) /\
  (Api.success answer = false ->
     Api.data answer = None /\ Api.error answer <> None).
Proof.
  cbv zeta. unfold get_correlation_analysis.
  destruct load_models as [e|].
  - cbn [Api.success Api.data Api.error].
    repeat split; try discriminate; intros [H _]; discriminate.
  - fold (info_of ticker).
    assert (Hs : StockInfo.correlation_analysis (info_of ticker) = None <->
                 StockInfo.sector (info_of ticker) = "Unknown").
    { destruct (info_cases ticker) as [[m H] | [_ [Ht [info [_ [_ [_ [Hu Hk]]]]]]]].
      - rewrite H. simpl. tauto.
      - destruct (String.eqb_spec (StockInfo.sector (info_of ticker)) "Unknown") as [E|N].
        + destruct (Hu E) as [H1 _]. tauto.
        + destruct (Hk N) as [H1 _]. rewrite H1.
          split; [discriminate | intros; contradiction]. }
    assert (H8 : (List.length (StockInfo.related_stocks (info_of ticker)) <= 8)%nat).
    { destruct (info_cases ticker) as [[m H] | [_ [Ht [info [_ [_ [_ [Hu Hk]]]]]]]].
      - rewrite H. simpl. lia.
      - destruct (String.eqb_spec (StockInfo.sector (info_of ticker)) "Unknown") as [E|N].
        + destruct (Hu E) as [_ H2]. rewrite H2. simpl. lia.
        + destruct (Hk N) as [_ H2]. rewrite H2. apply firstn_le_length. }
    destruct (StockInfo.correlation_analysis (info_of ticker)) as [analysis|] eqn:Ec;
      cbn [Api.success Api.data Api.error].
    + split; [|split].
      * split; [intros _; split; [reflexivity|] | reflexivity].
        intros E. apply Hs in E. discriminate.
      * intros _. exists analysis. repeat split; [exact H8].
      * discriminate.
    + split; [|split].
      * split; [discriminate|]. intros [_ N]. exfalso. apply N. now apply Hs.
      * discriminate.
      * intros _. split; [reflexivity | discriminate].
Qed.

End StockInformationFacts.

(** ** The further properties at work on the sample world *)

Lemma find_sector_peers_sound_witness :
  In "MSFT" (find_sector_peers "AAPL" "Technology") /\
  In "MSFT" (dict_get (catalog_of "AAPL") "Technology" []).
Proof.
  assert (H : In "MSFT" (find_sector_peers "AAPL" "Technology"))
    by (vm_compute; left; reflexivity).
  split; [exact H|].
  destruct (find_sector_peers_sound "AAPL" "Technology") as [_ [_ [_ W]]].
  exact (W "MSFT" H).
Defined.

Lemma find_sector_peers_market_witness :
  In "INFY.NS" (find_sector_peers "TCS.NS" "Technology") /\
  endswith "INFY.NS" ".NS" = is_indian "TCS.NS".
Proof.
  assert (H : In "INFY.NS" (find_sector_peers "TCS.NS" "Technology"))
    by (vm_compute; left; reflexivity).
  split; [exact H|].
  exact (find_sector_peers_market "TCS.NS" "Technology" "INFY.NS" H).
Defined.

Lemma find_sector_peers_count_witness :
  dict_get (catalog_of "AAPL") "Technology" [] <> [] /\
  is_indian "AAPL" = false /\
  List.length (find_sector_peers "AAPL" "Technology") = 8%nat /\
  find_sector_peers "AAPL" "Crypto" = [].
Proof.
  assert (H : dict_get (catalog_of "AAPL") "Technology" [] <> [])
    by (vm_compute; discriminate).
  assert (M : is_indian "AAPL" = false) by (vm_compute; reflexivity).
  split; [exact H|]. split; [exact M|]. split.
  - destruct (find_sector_peers_count "AAPL" "Technology") as [_ W].
    exact (proj2 (W H) M).
  - destruct (find_sector_peers_count "AAPL" "Crypto") as [W _].
    apply W. vm_compute. reflexivity.
Defined.

Lemma get_related_stocks_shape_witness :
  In "ORCL" (dict_get (get_related_stocks "AAPL" "Technology" "Consumer Electronics")
               "industry_peers" []) /\
  In "ORCL" (find_sector_peers "AAPL" "Technology") /\
  "ORCL" <> "AAPL".
Proof.
  assert (H : In "ORCL" (dict_get (get_related_stocks "AAPL" "Technology"
                                     "Consumer Electronics") "industry_peers" []))
    by (vm_compute; do 3 right; left; reflexivity).
  split; [exact H|].
  pose proof (get_related_stocks_shape "AAPL" "Technology" "Consumer Electronics") as W.
  cbv zeta in W. destruct W as [_ [_ [_ [_ [_ [W _]]]]]].
  exact (W "industry_peers" "ORCL" H).
Defined.

Lemma candidates_are_first_six_peers_witness :
  is_indian "AAPL" = false /\
  dict_get (catalog_of "AAPL") "Technology" [] <> [] /\
  List.length (all_related_of (get_related_stocks "AAPL" "Technology" "")) = 13%nat /\
  In "ORCL" (map fst (all_related_of (get_related_stocks "AAPL" "Technology" ""))).
Proof.
  assert (M : is_indian "AAPL" = false) by (vm_compute; reflexivity).
  assert (H : dict_get (catalog_of "AAPL") "Technology" [] <> [])
    by (vm_compute; discriminate).
  split; [exact M|]. split; [exact H|].
  pose proof (candidates_are_first_six_peers "AAPL" "Technology") as W.
  cbv zeta in W. destruct W as [_ [W2 [_ W4]]].
  split; [exact (W4 M H)|].
  apply W2. vm_compute. do 5 right. left. reflexivity.
Defined.

Lemma related_stocks_come_from_candidates_witness :
  In Sample.msft_entry
    (Impact.related_stocks
       (analyze_stock_impact Sample.yf_history Sample.series_corr Sample.executor_submit
          Sample.timed_out Sample.now_isoformat "AAPL" "Technology")) /\
  In (Entry.ticker Sample.msft_entry)
     (firstn 6 (find_sector_peers "AAPL" "Technology")) /\
  Entry.ticker Sample.msft_entry <> "AAPL".
Proof.
  assert (H : In Sample.msft_entry
                (Impact.related_stocks
                   (analyze_stock_impact Sample.yf_history Sample.series_corr
                      Sample.executor_submit Sample.timed_out Sample.now_isoformat
                      "AAPL" "Technology"))).
  { vm_compute. right. right. left. reflexivity. }
  split; [exact H|].
  destruct (related_stocks_come_from_candidates Sample.yf_history Sample.series_corr
              Sample.executor_submit Sample.timed_out Sample.now_isoformat
              "AAPL" "Technology") as [W _].
  destruct (W Sample.msft_entry H) as [_ [W2 [W3 _]]].
  split; [exact W2 | exact W3].
Defined.

Lemma related_stock_direction_and_score_witness :
  In Sample.msft_entry
    (Impact.related_stocks
       (analyze_stock_impact Sample.yf_history Sample.series_corr Sample.executor_submit
          Sample.timed_out Sample.now_isoformat "AAPL" "Technology")) /\
  fgt (Entry.correlation Sample.msft_entry) (Fin 0) = true /\
  Entry.direction Sample.msft_entry = "Positive".
Proof.
  assert (H : In Sample.msft_entry
                (Impact.related_stocks
                   (analyze_stock_impact Sample.yf_history Sample.series_corr
                      Sample.executor_submit Sample.timed_out Sample.now_isoformat
                      "AAPL" "Technology"))).
  { vm_compute. right. right. left. reflexivity. }
  assert (P : fgt (Entry.correlation Sample.msft_entry) (Fin 0) = true)
    by (vm_compute; reflexivity).
  split; [exact H|]. split; [exact P|].
  destruct (related_stock_direction_and_score Sample.yf_history Sample.series_corr
              Sample.executor_submit Sample.timed_out Sample.now_isoformat
              "AAPL" "Technology" Sample.msft_entry H) as [_ [W _]].
  exact (W P).
Defined.

Lemma analysis_fails_iff_submit_raises_witness :
  analyze_stock_impact_body Sample.yf_history Sample.series_corr Sample.failing_submit
    Sample.timed_out Sample.now_isoformat "AAPL" "Technology" =
    inl (Exception "can't start new thread") /\
  exists k,
    (k < 13)%nat /\
    Sample.failing_submit k = Some (Exception "can't start new thread") /\
    forall j, (j < k)%nat -> Sample.failing_submit j = None.
Proof.
  assert (H : analyze_stock_impact_body Sample.yf_history Sample.series_corr
                Sample.failing_submit Sample.timed_out Sample.now_isoformat
                "AAPL" "Technology" = inl (Exception "can't start new thread"))
    by (vm_compute; reflexivity).
  split; [exact H|].
  destruct (proj1 (analysis_fails_iff_submit_raises Sample.yf_history Sample.series_corr
                     Sample.failing_submit Sample.timed_out Sample.now_isoformat
                     "AAPL" "Technology" (Exception "can't start new thread")) H)
    as [k [Hk [He Hj]]].
  exists k. split; [exact Hk|]. split; [exact He | exact Hj].
Defined.

Lemma all_timeouts_give_unknown_witness :
  (forall i, (i < 13)%nat -> Sample.always_timed_out i = true) /\
  Summary.market_influence
    (Impact.summary
       (analyze_stock_impact Sample.yf_history Sample.series_corr Sample.executor_submit
          Sample.always_timed_out Sample.now_isoformat "AAPL" "Technology")) = "Unknown".
Proof.
  split; [intros i _; reflexivity|].
  destruct (all_timeouts_give_unknown Sample.yf_history Sample.series_corr
              Sample.executor_submit Sample.always_timed_out Sample.now_isoformat
              "AAPL" "Technology"
              (analyze_stock_impact Sample.yf_history Sample.series_corr
                 Sample.executor_submit Sample.always_timed_out Sample.now_isoformat
                 "AAPL" "Technology")
              ltac:(vm_compute; reflexivity)
              (fun i _ => eq_refl)) as [_ [W _]].
  rewrite W. reflexivity.
Defined.

Lemma unusable_primary_gives_unknown_witness :
  get_stock_price_data Sample.yf_history "NVDA" "1y" = Some (Sample.ramp 10 0 400) /\
  (List.length (Sample.ramp 10 0 400) < 30)%nat /\
  Impact.related_stocks
    (analyze_stock_impact Sample.yf_history Sample.series_corr Sample.executor_submit
       Sample.timed_out Sample.now_isoformat "NVDA" "Technology") = [].
Proof.
  assert (H : get_stock_price_data Sample.yf_history "NVDA" "1y" =
              Some (Sample.ramp 10 0 400)) by (vm_compute; reflexivity).
  assert (L : (List.length (Sample.ramp 10 0 400) < 30)%nat) by (vm_compute; lia).
  split; [exact H|]. split; [exact L|].
  destruct (unusable_primary_gives_unknown Sample.yf_history Sample.series_corr
              Sample.executor_submit Sample.timed_out Sample.now_isoformat
              "NVDA" "Technology"
              (analyze_stock_impact Sample.yf_history Sample.series_corr
                 Sample.executor_submit Sample.timed_out Sample.now_isoformat
                 "NVDA" "Technology")
              ltac:(vm_compute; reflexivity)
              (or_intror (ex_intro _ (Sample.ramp 10 0 400) (conj H L)))) as [W _].
  exact W.
Defined.

Lemma max_correlation_is_first_witness :
  (forall returns1 returns2 c,
     Sample.series_corr returns1 returns2 = inr c -> is_nan c = false) /\
  Summary.max_correlation
    (Impact.summary
       (analyze_stock_impact Sample.yf_history Sample.series_corr Sample.executor_submit
          Sample.timed_out Sample.now_isoformat "AAPL" "Technology")) =
    Fin (4 # 5).
Proof.
  split; [exact sample_corr_no_nan|].
  assert (R : exists first rest,
            Impact.related_stocks
              (analyze_stock_impact Sample.yf_history Sample.series_corr
                 Sample.executor_submit Sample.timed_out Sample.now_isoformat
                 "AAPL" "Technology") = first :: rest /\
            Entry.correlation first = Fin (-4 # 5)).
  { vm_compute. eexists. eexists. split; reflexivity. }
  destruct R as [first [rest [R C]]].
  rewrite (max_correlation_is_first Sample.yf_history Sample.series_corr
             Sample.executor_submit Sample.timed_out Sample.now_isoformat
             "AAPL" "Technology"
             (analyze_stock_impact Sample.yf_history Sample.series_corr
                Sample.executor_submit Sample.timed_out Sample.now_isoformat
                "AAPL" "Technology")
             first rest sample_corr_no_nan
             ltac:(vm_compute; reflexivity) R).
  unfold abs_correlation. rewrite C. reflexivity.
Defined.

Lemma network_follows_results_witness :
  get_impact_network_data [] = {| Network.nodes := []; Network.edges := [] |} /\
  map Node.id (Network.nodes (get_impact_network_data [Sample.msft_entry])) = ["MSFT"].
Proof.
  split.
  - pose proof (network_follows_results []) as W. cbv zeta in W.
    destruct W as [_ [_ [_ [_ [_ [_ [_ W]]]]]]]. exact (W eq_refl).
  - pose proof (network_follows_results [Sample.msft_entry]) as W. cbv zeta in W.
    destruct W as [W _]. rewrite W. reflexivity.
Defined.

Lemma network_colours_and_sizes_witness :
  fge (Fin 1) (fabs (Entry.correlation Sample.msft_entry)) = true /\
  fge (Fin 60) (Node.size (node_of Sample.msft_entry)) = true /\
  Node.color (node_of Sample.msft_entry) = "#f39c12".
Proof.
  assert (H : fge (Fin 1) (fabs (Entry.correlation Sample.msft_entry)) = true)
    by (vm_compute; reflexivity).
  split; [exact H|].
  pose proof (network_colours_and_sizes Sample.msft_entry) as W. cbv zeta in W.
  destruct W as [_ [W2 [_ [W4 _]]]].
  split; [exact (proj1 (proj2 (W4 H)))|].
  apply W2. split; vm_compute; reflexivity.
Defined.

Lemma analysis_network_by_size_witness :
  (forall returns1 returns2 c,
     Sample.series_corr returns1 returns2 = inr c -> is_nan c = false) /\
  StronglySorted size_ge
    (Network.nodes
       (get_impact_network_data
          (Impact.related_stocks
             (analyze_stock_impact Sample.yf_history Sample.series_corr
                Sample.executor_submit Sample.timed_out Sample.now_isoformat
                "AAPL" "Technology")))).
Proof.
  split; [exact sample_corr_no_nan|].
  pose proof (analysis_network_by_size Sample.yf_history Sample.series_corr
                Sample.executor_submit Sample.timed_out Sample.now_isoformat
                "AAPL" "Technology"
                (analyze_stock_impact Sample.yf_history Sample.series_corr
                   Sample.executor_submit Sample.timed_out Sample.now_isoformat
                   "AAPL" "Technology")
                sample_corr_no_nan ltac:(vm_compute; reflexivity)) as W.
  cbv zeta in W. exact (proj1 W).
Defined.

Lemma display_agrees_with_engine_witness :
  fgt (Fin 0) (Fin 0) = false /\ flt (Fin 0) (Fin 0) = false /\
  Display.direction (format_correlation_strength (Fin 0)) = "Neutral" /\
  direction_of (Fin 0) = "Negative".
Proof.
  split; [reflexivity|]. split; [reflexivity|]. split; [|reflexivity].
  destruct (display_agrees_with_engine (Fin 0) (Fin 0)) as [_ [_ [W _]]].
  apply W. split; reflexivity.
Defined.

Lemma network_colour_by_strength_witness :
  strength_of (Fin (65 # 100)) = "Strong" /\
  network_color (Fin (65 # 100)) = "#e74c3c" /\
  Display.color (format_correlation_strength (Fin (65 # 100))) = "#f39c12".
Proof.
  assert (H : strength_of (Fin (65 # 100)) = "Strong") by (vm_compute; reflexivity).
  split; [exact H|]. split; [|vm_compute; reflexivity].
  destruct (network_colour_by_strength (Fin (65 # 100))) as [W _].
  apply W. right. exact H.
Defined.

Lemma inferred_sector_is_listed_witness :
  infer_sector_from_industry Sample.lower "Consumer Electronics" = "Technology" /\
  is_indian "AAPL" = false /\
  List.length (find_sector_peers "AAPL"
                 (infer_sector_from_industry Sample.lower "Consumer Electronics")) = 8%nat /\
  In (infer_sector_from_industry Sample.lower "Electric Utilities") default_only_sectors /\
  find_sector_peers "TCS.NS"
    (infer_sector_from_industry Sample.lower "Electric Utilities") = [].
Proof.
  assert (E : infer_sector_from_industry Sample.lower "Consumer Electronics" =
              "Technology") by (vm_compute; reflexivity).
  assert (M : is_indian "AAPL" = false) by (vm_compute; reflexivity).
  assert (D : In (infer_sector_from_industry Sample.lower "Electric Utilities")
                 default_only_sectors) by (vm_compute; right; left; reflexivity).
  split; [exact E|]. split; [exact M|]. split; [|split; [exact D|]].
  - pose proof (inferred_sector_is_listed Sample.lower "Consumer Electronics" "AAPL") as W.
    cbv zeta in W. destruct W as [_ [_ [W _]]].
    apply W; [rewrite E; discriminate | exact M].
  - pose proof (inferred_sector_is_listed Sample.lower "Electric Utilities" "TCS.NS") as W.
    cbv zeta in W. destruct W as [_ [_ [_ W]]].
    apply W; [exact D | vm_compute; reflexivity].
Defined.

Lemma get_ticker_symbol_sources_witness :
  get_ticker_symbol Sample.lower Sample.strip Sample.requests_get "Apple" = "AAPL" /\
  (exists e,
     Sample.requests_get
       "https://query2.finance.yahoo.com/v1/finance/search?q=Tata%20Consultancy&quotesCount=5&enableFuzzyQuery=false"
     = inl e) /\
  get_ticker_symbol Sample.lower Sample.strip Sample.requests_get "Tata Consultancy" =
    get_ticker_from_mapping Sample.lower Sample.strip "Tata Consultancy" /\
  get_ticker_symbol Sample.lower Sample.strip Sample.requests_get " TCS" = "TCS.NS".
Proof.
  split; [vm_compute; reflexivity|].
  assert (H : exists e,
            Sample.requests_get
              "https://query2.finance.yahoo.com/v1/finance/search?q=Tata%20Consultancy&quotesCount=5&enableFuzzyQuery=false"
            = inl e) by (eexists; vm_compute; reflexivity).
  split; [exact H|]. split; [|vm_compute; reflexivity].
  pose proof (get_ticker_symbol_sources Sample.lower Sample.strip Sample.requests_get
                "Tata Consultancy") as W.
  cbv zeta in W. destruct W as [_ W]. apply W. left.
  destruct H as [e H]. exists e. exact H.
Defined.

Lemma stock_info_errors_are_bare_witness :
  Sample.strip "   " = "" /\
  StockInfo.error
    (get_comprehensive_stock_info Sample.lower Sample.strip Sample.requests_get
       Sample.stock_info Sample.yf_history Sample.series_corr Sample.executor_submit
       Sample.timed_out Sample.now_isoformat "   ") = Some "No company name provided" /\
  StockInfo.error
    (get_comprehensive_stock_info Sample.lower Sample.strip Sample.requests_get
       Sample.stock_info Sample.yf_history Sample.series_corr Sample.executor_submit
       Sample.timed_out Sample.now_isoformat "tcs") =
    Some "Could not fetch stock information" /\
  StockInfo.sector
    (get_comprehensive_stock_info Sample.lower Sample.strip Sample.requests_get
       Sample.stock_info Sample.yf_history Sample.series_corr Sample.executor_submit
       Sample.timed_out Sample.now_isoformat "tcs") = "Unknown".
Proof.
  assert (S : Sample.strip "   " = "") by (vm_compute; reflexivity).
  assert (E : StockInfo.error
                (get_comprehensive_stock_info Sample.lower Sample.strip
                   Sample.requests_get Sample.stock_info Sample.yf_history
                   Sample.series_corr Sample.executor_submit Sample.timed_out
                   Sample.now_isoformat "tcs") =
              Some "Could not fetch stock information") by (vm_compute; reflexivity).
  split; [exact S|].
  destruct (stock_info_errors_are_bare Sample.lower Sample.strip Sample.requests_get
              Sample.stock_info Sample.yf_history Sample.series_corr
              Sample.executor_submit Sample.timed_out Sample.now_isoformat "   ")
    as [_ W].
  split; [exact (proj1 (W (or_intror S)))|]. split; [exact E|].
  destruct (stock_info_errors_are_bare Sample.lower Sample.strip Sample.requests_get
              Sample.stock_info Sample.yf_history Sample.series_corr
              Sample.executor_submit Sample.timed_out Sample.now_isoformat "tcs")
    as [W' _].
  rewrite (W' _ E). reflexivity.
Defined.

Lemma stock_info_correlation_witness :
  StockInfo.sector
    (get_comprehensive_stock_info Sample.lower Sample.strip Sample.requests_get
       Sample.stock_info Sample.yf_history Sample.series_corr Sample.executor_submit
       Sample.timed_out Sample.now_isoformat "Apple") = "Technology" /\
  StockInfo.related_stocks
    (get_comprehensive_stock_info Sample.lower Sample.strip Sample.requests_get
       Sample.stock_info Sample.yf_history Sample.series_corr Sample.executor_submit
       Sample.timed_out Sample.now_isoformat "Apple") =
    firstn 8
      (Impact.related_stocks
         (analyze_stock_impact Sample.yf_history Sample.series_corr
            Sample.executor_submit Sample.timed_out Sample.now_isoformat
            "AAPL" "Technology")).
Proof.
  assert (E : StockInfo.sector
                (get_comprehensive_stock_info Sample.lower Sample.strip
                   Sample.requests_get Sample.stock_info Sample.yf_history
                   Sample.series_corr Sample.executor_submit Sample.timed_out
                   Sample.now_isoformat "Apple") = "Technology")
    by (vm_compute; reflexivity).
  assert (T : StockInfo.ticker
                (get_comprehensive_stock_info Sample.lower Sample.strip
                   Sample.requests_get Sample.stock_info Sample.yf_history
                   Sample.series_corr Sample.executor_submit Sample.timed_out
                   Sample.now_isoformat "Apple") = "AAPL")
    by (vm_compute; reflexivity).
  split; [exact E|].
  pose proof (stock_info_correlation Sample.lower Sample.strip Sample.requests_get
                Sample.stock_info Sample.yf_history Sample.series_corr
                Sample.executor_submit Sample.timed_out Sample.now_isoformat "Apple")
    as W.
  cbv zeta in W. destruct W as [_ [_ [W _]]].
  rewrite E, T in W. apply W. discriminate.
Defined.

Lemma stock_info_summary_bounded_witness :
  StockInfo.error
    (get_comprehensive_stock_info Sample.lower Sample.strip Sample.requests_get
       Sample.stock_info Sample.yf_history Sample.series_corr Sample.executor_submit
       Sample.timed_out Sample.now_isoformat "Apple") = None /\
  (500 < String.length (Sample.repeat_string 60 "Apple Inc. "))%nat /\
  String.length
    (StockInfo.business_summary
       (get_comprehensive_stock_info Sample.lower Sample.strip Sample.requests_get
          Sample.stock_info Sample.yf_history Sample.series_corr Sample.executor_submit
          Sample.timed_out Sample.now_isoformat "Apple")) = 503%nat.
Proof.
  assert (E : StockInfo.error
                (get_comprehensive_stock_info Sample.lower Sample.strip
                   Sample.requests_get Sample.stock_info Sample.yf_history
                   Sample.series_corr Sample.executor_submit Sample.timed_out
                   Sample.now_isoformat "Apple") = None) by (vm_compute; reflexivity).
  assert (L : (500 < String.length (Sample.repeat_string 60 "Apple Inc. "))%nat)
    by (vm_compute; lia).
  split; [exact E|]. split; [exact L|].
  destruct (stock_info_summary_bounded Sample.lower Sample.strip Sample.requests_get
              Sample.stock_info Sample.yf_history Sample.series_corr
              Sample.executor_submit Sample.timed_out Sample.now_isoformat "Apple"
              {| Info.sector := None;
                 Info.industry := Some "Consumer Electronics";
                 Info.marketCap := Some 3000000000000%Z;
                 Info.country := Some "United States";
                 Info.website := Some "https://www.apple.com";
                 Info.longBusinessSummary := Some (Sample.repeat_string 60 "Apple Inc. ");
                 Info.fullTimeEmployees := Some 164000%Z |}) as [_ W].
  specialize (W E ltac:(vm_compute; reflexivity)). cbv zeta in W.
  exact (proj1 (proj2 W L)).
Defined.

Lemma api_success_witness :
  StockInfo.sector
    (get_comprehensive_stock_info Sample.lower Sample.strip Sample.requests_get
       Sample.stock_info Sample.yf_history Sample.series_corr Sample.failing_submit
       Sample.timed_out Sample.now_isoformat "Apple") <> "Unknown" /\
  Api.success
    (get_correlation_analysis Sample.lower Sample.strip Sample.requests_get
       Sample.stock_info None Sample.yf_history Sample.series_corr Sample.failing_submit
       Sample.timed_out Sample.now_isoformat "Apple") = true /\
  Api.success
    (get_correlation_analysis Sample.lower Sample.strip Sample.requests_get
       Sample.stock_info (Some (Exception "out of memory")) Sample.yf_history
       Sample.series_corr Sample.failing_submit Sample.timed_out Sample.now_isoformat
       "Apple") = false.
Proof.
  assert (N : StockInfo.sector
                (get_comprehensive_stock_info Sample.lower Sample.strip
                   Sample.requests_get Sample.stock_info Sample.yf_history
                   Sample.series_corr Sample.failing_submit Sample.timed_out
                   Sample.now_isoformat "Apple") <> "Unknown")
    by (vm_compute; discriminate).
  split; [exact N|]. split.
  - pose proof (api_success Sample.lower Sample.strip Sample.requests_get
                  Sample.stock_info None Sample.yf_history Sample.series_corr
                  Sample.failing_submit Sample.timed_out Sample.now_isoformat "Apple")
      as W.
    cbv zeta in W. destruct W as [W _].
    apply W. split; [reflexivity | exact N].
  - vm_compute. reflexivity.
Defined.
